(** * The konnectivity agent resource of Kamaji

    A shallow embedding of [internal/resources/konnectivity/agent.go]: the
    [Agent] resource that keeps the konnectivity agent DaemonSet of a tenant
    cluster in line with the add-on section of a TenantControlPlane.

    Go values are modelled as follows.
    - [string] is [string], [int32]/[int64] are [Z], slices are lists;
    - a [map[string]string] is a [gmap string string] (a nil map and an empty
      map read the same and are both [∅]);
    - a pointer field that the code tests against nil or allocates is an
      [option];
    - an [error] result is an [option error] ([None] is nil);
    - a method that writes through its receiver is a computation over the
      [World] the receiver lives in; a nil dereference or an index out of
      range is a panic, and a panicking computation has no result. *)

From Stdlib Require Import ZArith String Ascii DecimalString.
From stdpp Require Import gmap strings list sorting.

Local Open Scope Z_scope.

(** ** Errors *)

(** The reasons of an API status error that the code tells apart. *)
Inductive StatusReason :=
| StatusReasonNotFound
| StatusReasonAlreadyExists
| StatusReasonConflict
| StatusReasonInternalError.

Inductive error :=
| StatusError (reason : StatusReason) (message : string)
| errorString (message : string).

#[global] Instance StatusReason_eq_dec : EqDecision StatusReason.
Proof. solve_decision. Defined.

#[global] Instance error_eq_dec : EqDecision error.
Proof. solve_decision. Defined.

Module k8serrors.
(** [IsNotFound] holds of the API errors whose reason is NotFound. *)
Definition IsNotFound (err : error) : bool :=
  match err with
  | StatusError StatusReasonNotFound _ => true
  | _ => false
  end.
End k8serrors.

(** ** Kubernetes API types (the fields of [metav1], [corev1], [appsv1]
    that the agent reads or writes, and some it leaves alone) *)

(** [metav1.Time]: seconds since the zero time, which is [0]. *)
Definition Time := Z.

Module ObjectMeta.
Record t := mk {
  Name : string;
  Namespace : string;
  Labels : gmap string string;
  Annotations : gmap string string }.

Definition zero : t := mk EmptyString EmptyString ∅ ∅.

Definition SetLabels (labels : gmap string string) (m : t) : t :=
  mk (Name m) (Namespace m) labels (Annotations m).

#[global] Instance eq_dec : EqDecision t.
Proof. solve_decision. Defined.
End ObjectMeta.

Module LabelSelectorRequirement.
Record t := mk {
  Key : string;
  Operator : string;
  Values : list string }.

#[global] Instance eq_dec : EqDecision t.
Proof. solve_decision. Defined.
End LabelSelectorRequirement.

Module LabelSelector.
Record t := mk {
  MatchLabels : gmap string string;
  MatchExpressions : list LabelSelectorRequirement.t }.

Definition zero : t := mk ∅ [].

Definition set_MatchLabels (labels : gmap string string) (s : t) : t :=
  mk labels (MatchExpressions s).

#[global] Instance eq_dec : EqDecision t.
Proof. solve_decision. Defined.
End LabelSelector.

Module Toleration.
Record t := mk {
  Key : string;
  Operator : string;
  Value : string;
  Effect : string;
  TolerationSeconds : option Z }.

#[global] Instance eq_dec : EqDecision t.
Proof. solve_decision. Defined.
End Toleration.

Module ServiceAccountTokenProjection.
Record t := mk {
  Audience : string;
  ExpirationSeconds : option Z;
  Path : string }.

#[global] Instance eq_dec : EqDecision t.
Proof. solve_decision. Defined.
End ServiceAccountTokenProjection.

Module VolumeProjection.
Record t := mk {
  ServiceAccountToken : option ServiceAccountTokenProjection.t }.

#[global] Instance eq_dec : EqDecision t.
Proof. solve_decision. Defined.
End VolumeProjection.

Module ProjectedVolumeSource.
Record t := mk {
  Sources : list VolumeProjection.t;
  DefaultMode : option Z }.

#[global] Instance eq_dec : EqDecision t.
Proof. solve_decision. Defined.
End ProjectedVolumeSource.

Module VolumeSource.
Record t := mk {
  Projected : option ProjectedVolumeSource.t }.

#[global] Instance eq_dec : EqDecision t.
Proof. solve_decision. Defined.
End VolumeSource.

Module Volume.
Record t := mk {
  Name : string;
  VolumeSource : VolumeSource.t }.

#[global] Instance eq_dec : EqDecision t.
Proof. solve_decision. Defined.
End Volume.

Module VolumeMount.
Record t := mk {
  Name : string;
  ReadOnly : bool;
  MountPath : string;
  SubPath : string }.

#[global] Instance eq_dec : EqDecision t.
Proof. solve_decision. Defined.
End VolumeMount.

Module intstr.
Inductive IntOrString :=
| Int (IntVal : Z)
| String (StrVal : string).

Definition FromInt (val : Z) : IntOrString := Int val.

#[global] Instance eq_dec : EqDecision IntOrString.
Proof. solve_decision. Defined.
End intstr.

(** [corev1.URIScheme] is a string type; [URISchemeHTTP] is its constant
    for plain HTTP. *)
Definition URIScheme := string.
Definition URISchemeHTTP : URIScheme := "HTTP".

Module HTTPGetAction.
Record t := mk {
  Path : string;
  Port : intstr.IntOrString;
  Host : string;
  Scheme : URIScheme }.

#[global] Instance eq_dec : EqDecision t.
Proof. solve_decision. Defined.
End HTTPGetAction.

Module ProbeHandler.
Record t := mk {
  HTTPGet : option HTTPGetAction.t }.

#[global] Instance eq_dec : EqDecision t.
Proof. solve_decision. Defined.
End ProbeHandler.

Module Probe.
Record t := mk {
  ProbeHandler : ProbeHandler.t;
  InitialDelaySeconds : Z;
  TimeoutSeconds : Z;
  PeriodSeconds : Z;
  SuccessThreshold : Z;
  FailureThreshold : Z }.

#[global] Instance eq_dec : EqDecision t.
Proof. solve_decision. Defined.
End Probe.

Module EnvVar.
Record t := mk {
  Name : string;
  Value : string }.

#[global] Instance eq_dec : EqDecision t.
Proof. solve_decision. Defined.
End EnvVar.

Module ContainerPort.
Record t := mk {
  Name : string;
  ContainerPort : Z;
  Protocol : string }.

#[global] Instance eq_dec : EqDecision t.
Proof. solve_decision. Defined.
End ContainerPort.

Module ResourceRequirements.
Record t := mk {
  Limits : gmap string string;
  Requests : gmap string string }.

Definition zero : t := mk ∅ ∅.

#[global] Instance eq_dec : EqDecision t.
Proof. solve_decision. Defined.
End ResourceRequirements.

Module Container.
Record t := mk {
  Name : string;
  Image : string;
  Command : list string;
  Args : list string;
  WorkingDir : string;
  Ports : list ContainerPort.t;
  Env : list EnvVar.t;
  Resources : ResourceRequirements.t;
  VolumeMounts : list VolumeMount.t;
  LivenessProbe : option Probe.t;
  ImagePullPolicy : string }.

(** The zero value, as [make([]corev1.Container, 1)] fills its slot. *)
Definition zero : t :=
  mk EmptyString EmptyString [] [] EmptyString [] [] ResourceRequirements.zero [] None EmptyString.

Definition set_Name (v : string) (c : t) : t :=
  mk v (Image c) (Command c) (Args c) (WorkingDir c) (Ports c) (Env c)
     (Resources c) (VolumeMounts c) (LivenessProbe c) (ImagePullPolicy c).
Definition set_Image (v : string) (c : t) : t :=
  mk (Name c) v (Command c) (Args c) (WorkingDir c) (Ports c) (Env c)
     (Resources c) (VolumeMounts c) (LivenessProbe c) (ImagePullPolicy c).
Definition set_Command (v : list string) (c : t) : t :=
  mk (Name c) (Image c) v (Args c) (WorkingDir c) (Ports c) (Env c)
     (Resources c) (VolumeMounts c) (LivenessProbe c) (ImagePullPolicy c).
Definition set_Args (v : list string) (c : t) : t :=
  mk (Name c) (Image c) (Command c) v (WorkingDir c) (Ports c) (Env c)
     (Resources c) (VolumeMounts c) (LivenessProbe c) (ImagePullPolicy c).
Definition set_VolumeMounts (v : list VolumeMount.t) (c : t) : t :=
  mk (Name c) (Image c) (Command c) (Args c) (WorkingDir c) (Ports c) (Env c)
     (Resources c) v (LivenessProbe c) (ImagePullPolicy c).
Definition set_LivenessProbe (v : option Probe.t) (c : t) : t :=
  mk (Name c) (Image c) (Command c) (Args c) (WorkingDir c) (Ports c) (Env c)
     (Resources c) (VolumeMounts c) v (ImagePullPolicy c).

#[global] Instance eq_dec : EqDecision t.
Proof. solve_decision. Defined.
End Container.

Module PodSpec.
Record t := mk {
  Volumes : list Volume.t;
  Containers : list Container.t;
  DNSPolicy : string;
  NodeSelector : gmap string string;
  ServiceAccountName : string;
  HostNetwork : bool;
  Tolerations : list Toleration.t;
  PriorityClassName : string }.

Definition zero : t := mk [] [] EmptyString ∅ EmptyString false [] EmptyString.

Definition set_Volumes (v : list Volume.t) (p : t) : t :=
  mk v (Containers p) (DNSPolicy p) (NodeSelector p) (ServiceAccountName p)
     (HostNetwork p) (Tolerations p) (PriorityClassName p).
Definition set_Containers (v : list Container.t) (p : t) : t :=
  mk (Volumes p) v (DNSPolicy p) (NodeSelector p) (ServiceAccountName p)
     (HostNetwork p) (Tolerations p) (PriorityClassName p).
Definition set_NodeSelector (v : gmap string string) (p : t) : t :=
  mk (Volumes p) (Containers p) (DNSPolicy p) v (ServiceAccountName p)
     (HostNetwork p) (Tolerations p) (PriorityClassName p).
Definition set_ServiceAccountName (v : string) (p : t) : t :=
  mk (Volumes p) (Containers p) (DNSPolicy p) (NodeSelector p) v
     (HostNetwork p) (Tolerations p) (PriorityClassName p).
Definition set_Tolerations (v : list Toleration.t) (p : t) : t :=
  mk (Volumes p) (Containers p) (DNSPolicy p) (NodeSelector p)
     (ServiceAccountName p) (HostNetwork p) v (PriorityClassName p).
Definition set_PriorityClassName (v : string) (p : t) : t :=
  mk (Volumes p) (Containers p) (DNSPolicy p) (NodeSelector p)
     (ServiceAccountName p) (HostNetwork p) (Tolerations p) v.

#[global] Instance eq_dec : EqDecision t.
Proof. solve_decision. Defined.
End PodSpec.

Module PodTemplateSpec.
Record t := mk {
  ObjectMeta : ObjectMeta.t;
  Spec : PodSpec.t }.

Definition zero : t := mk ObjectMeta.zero PodSpec.zero.

Definition GetLabels (p : t) : gmap string string :=
  ObjectMeta.Labels (ObjectMeta p).
Definition SetLabels (labels : gmap string string) (p : t) : t :=
  mk (ObjectMeta.SetLabels labels (ObjectMeta p)) (Spec p).
Definition over_Spec (f : PodSpec.t → PodSpec.t) (p : t) : t :=
  mk (ObjectMeta p) (f (Spec p)).

#[global] Instance eq_dec : EqDecision t.
Proof. solve_decision. Defined.
End PodTemplateSpec.

Module DaemonSetSpec.
Record t := mk {
  Selector : option LabelSelector.t;
  Template : PodTemplateSpec.t;
  MinReadySeconds : Z }.

Definition zero : t := mk None PodTemplateSpec.zero 0.

Definition set_Selector (v : option LabelSelector.t) (s : t) : t :=
  mk v (Template s) (MinReadySeconds s).
Definition over_Template (f : PodTemplateSpec.t → PodTemplateSpec.t) (s : t) : t :=
  mk (Selector s) (f (Template s)) (MinReadySeconds s).

#[global] Instance eq_dec : EqDecision t.
Proof. solve_decision. Defined.
End DaemonSetSpec.

Module DaemonSet.
Record t := mk {
  ObjectMeta : ObjectMeta.t;
  Spec : DaemonSetSpec.t }.

Definition GetName (d : t) : string := ObjectMeta.Name (ObjectMeta d).
Definition GetNamespace (d : t) : string := ObjectMeta.Namespace (ObjectMeta d).
Definition GetLabels (d : t) : gmap string string :=
  ObjectMeta.Labels (ObjectMeta d).
Definition SetLabels (labels : gmap string string) (d : t) : t :=
  mk (ObjectMeta.SetLabels labels (ObjectMeta d)) (Spec d).
Definition over_Spec (f : DaemonSetSpec.t → DaemonSetSpec.t) (d : t) : t :=
  mk (ObjectMeta d) (f (Spec d)).

#[global] Instance eq_dec : EqDecision t.
Proof. solve_decision. Defined.
End DaemonSet.

(** ** Kamaji API types *)

(** Modelled from the spec: the type declarations of [api/v1alpha1], which
    are not among the sources at hand. The spec's data model gives the
    add-on section "agent image, version, extra arguments, and a reference to
    the proxy server's network endpoint and port" and the status "name,
    namespace and a last-update timestamp"; the records below hold exactly
    the fields that [agent.go] reads or writes, under the names it uses. *)
Module KonnectivityAgentSpec.
Record t := mk {
  Image : string;
  Version : string;
  ExtraArgs : list string }.
End KonnectivityAgentSpec.

Module KonnectivityServerSpec.
Record t := mk {
  Port : Z }.
End KonnectivityServerSpec.

Module KonnectivitySpec.
Record t := mk {
  KonnectivityServerSpec : KonnectivityServerSpec.t;
  KonnectivityAgentSpec : KonnectivityAgentSpec.t }.
End KonnectivitySpec.

Module AddonsSpec.
Record t := mk {
  Konnectivity : option KonnectivitySpec.t }.
End AddonsSpec.

Module TenantControlPlaneSpec.
Record t := mk {
  Addons : AddonsSpec.t }.
End TenantControlPlaneSpec.

Module ExternalKubernetesObjectStatus.
Record t := mk {
  Name : string;
  Namespace : string;
  LastUpdate : Time }.

(** The composite literal [ExternalKubernetesObjectStatus{}]. *)
Definition zero : t := mk EmptyString EmptyString 0.
End ExternalKubernetesObjectStatus.

Module KonnectivityStatus.
Record t := mk {
  Agent : ExternalKubernetesObjectStatus.t;
  ClusterRoleBinding : ExternalKubernetesObjectStatus.t }.

Definition set_Agent (v : ExternalKubernetesObjectStatus.t) (s : t) : t :=
  mk v (ClusterRoleBinding s).
End KonnectivityStatus.

Module AddonsStatus.
Record t := mk {
  Konnectivity : KonnectivityStatus.t }.
End AddonsStatus.

Module TenantControlPlaneStatus.
Record t := mk {
  Addons : AddonsStatus.t }.
End TenantControlPlaneStatus.

Module TenantControlPlane.
Record t := mk {
  ObjectMeta : ObjectMeta.t;
  Spec : TenantControlPlaneSpec.t;
  Status : TenantControlPlaneStatus.t }.

Definition GetName (tcp : t) : string := ObjectMeta.Name (ObjectMeta tcp).

(** [tcp.Spec.Addons.Konnectivity] *)
Definition addon (tcp : t) : option KonnectivitySpec.t :=
  AddonsSpec.Konnectivity (TenantControlPlaneSpec.Addons (Spec tcp)).

(** [tcp.Status.Addons.Konnectivity] *)
Definition addonStatus (tcp : t) : KonnectivityStatus.t :=
  AddonsStatus.Konnectivity (TenantControlPlaneStatus.Addons (Status tcp)).

(** [tcp.Status.Addons.Konnectivity.Agent = v] *)
Definition set_agentStatus (v : ExternalKubernetesObjectStatus.t) (tcp : t) : t :=
  mk (ObjectMeta tcp) (Spec tcp)
     (TenantControlPlaneStatus.mk
        (AddonsStatus.mk (KonnectivityStatus.set_Agent v (addonStatus tcp)))).
End TenantControlPlane.

(** ** Label and argument helpers *)

Module utilities.
(** Modelled from the spec: [utilities.MergeMaps], not among the sources.
    The spec has the template labels merged, "not replaced", with the
    managed label, "preserving any template labels not managed by this
    reconciler": the maps are poured into a fresh one from left to right,
    so a later map wins on a common key. *)
Definition MergeMaps (maps : list (gmap string string)) : gmap string string :=
  foldl (λ result m, m ∪ result) ∅ maps.

(** Modelled from the spec: how [ArgsFromSliceToMap] below reads one
    argument, the inverse of the [flag=value] form of the spec's external
    contract. The flag and the value are the text before and after the
    first [=]; an argument without [=] is a flag with an empty value. *)
Fixpoint splitFlag (arg : string) : string * string :=
  match arg with
  | EmptyString => (EmptyString, EmptyString)
  | String c rest =>
      if Ascii.eqb c "="%char then (EmptyString, rest)
      else let (flag, value) := splitFlag rest in (String c flag, value)
  end.

(** Modelled from the spec: [utilities.ArgsFromSliceToMap], not among the
    sources. The spec's "map keyed by flag name" of the user-supplied
    arguments; a later argument replaces an earlier one with its flag. *)
Definition ArgsFromSliceToMap (args : list string) : gmap string string :=
  foldl (λ m arg, let (flag, value) := splitFlag arg in <[flag := value]> m)
        ∅ args.

(** A flag proper: a string without [=]. *)
Fixpoint noEq (s : string) : bool :=
  match s with
  | EmptyString => true
  | String c rest => negb (Ascii.eqb c "="%char) && noEq rest
  end.

Definition flag_le (a b : string * string) : Prop := String.leb a.1 b.1.

#[global] Instance flag_le_dec a b : Decision (flag_le a b).
Proof. unfold flag_le. apply _. Defined.

(** Modelled from the spec: one entry of [ArgsFromMapToSlice] below, in the
    [flag=value] form of the spec's external contract. *)
Definition render (arg : string * string) : string :=
  arg.1 +:+ "=" +:+ arg.2.

(** Modelled from the spec: [utilities.ArgsFromMapToSlice], not among the
    sources. The map is "serialized to a flat argument list in a stable
    (e.g., sorted-key) order", each entry as [flag=value], the form of the
    mandatory arguments in the spec's external contract. *)
Definition ArgsFromMapToSlice (args : gmap string string) : list string :=
  render <$> merge_sort flag_le (map_to_list args).
End utilities.

(** ** The tenant client and the world of a reconcile pass *)

Module client.
(** [client.ObjectKey] *)
Record ObjectKey := mkKey {
  Namespace : string;
  Name : string }.

#[global] Instance ObjectKey_eq_dec : EqDecision ObjectKey.
Proof. solve_decision. Defined.

Definition ObjectKeyFromObject (obj : DaemonSet.t) : ObjectKey :=
  mkKey (DaemonSet.GetNamespace obj) (DaemonSet.GetName obj).

(** The part of the [client.Client] interface that the agent and the
    create-or-update primitive call, over the states [S] of the cluster
    behind the client. [Get] reads; the writers give the error they
    return and the cluster they leave. *)
Class Client (S : Type) := {
  Get : ObjectKey → S → DaemonSet.t + error;
  Create : DaemonSet.t → S → option error * S;
  Update : DaemonSet.t → S → option error * S;
  Delete : DaemonSet.t → S → option error * S }.

Inductive Call :=
| CallGet (key : ObjectKey)
| CallCreate (obj : DaemonSet.t)
| CallUpdate (obj : DaemonSet.t)
| CallDelete (obj : DaemonSet.t).
End client.

(** What a pass leaves behind for an observer: the calls that reached the
    tenant client and the lines logged at error severity. *)
Inductive Event :=
| Called (call : client.Call)
| LoggedError (resource : string) (err : error) (msg : string).

(** The world an [Agent] runs in once [Define] has returned nil: the
    DaemonSet [r.resource] points to, the tenant cluster behind
    [r.tenantClient], and the events so far, oldest first. *)
Record World (S : Type) := mkWorld {
  resource : DaemonSet.t;
  tenant : S;
  trace : list Event }.
Arguments mkWorld {S} _ _ _.
Arguments resource {S} _.
Arguments tenant {S} _.
Arguments trace {S} _.

(** A computation in a world: [None] is a panic. *)
Definition M (S A : Type) : Type := World S → option (A * World S).

#[global] Instance M_ret {S} : MRet (M S) := λ A a w, Some (a, w).

#[global] Instance M_bind {S} : MBind (M S) :=
  λ A B k m w, match m w with
               | Some (a, w') => k a w'
               | None => None
               end.

Definition panic {S A} : M S A := λ _, None.

Definition get_resource {S} : M S DaemonSet.t := λ w, Some (resource w, w).

Definition modify_resource {S} (f : DaemonSet.t → DaemonSet.t) : M S unit :=
  λ w, Some (tt, mkWorld (f (resource w)) (tenant w) (trace w)).

Definition emit {S} (e : Event) : M S unit :=
  λ w, Some (tt, mkWorld (resource w) (tenant w) (trace w ++ [e])).

(** [*p] for a pointer [p] that may be nil. *)
Definition deref {S A} (p : option A) : M S A :=
  match p with
  | Some a => mret a
  | None => panic
  end.

(** [logger.Error(err, msg)] on the logger of the given resource. *)
Definition logger_Error {S} (resource : string) (err : error) (msg : string) : M S unit :=
  emit (LoggedError resource err msg).

Section tenantClient.
Context {S : Type} `{!client.Client S}.

(** [r.tenantClient.Get(ctx, key, r.resource)]: on success the object read
    is written over [r.resource]. *)
Definition tenantClient_Get (key : client.ObjectKey) : M S (option error) :=
  λ w, let tr := trace w ++ [Called (client.CallGet key)] in
       match client.Get key (tenant w) with
       | inl obj => Some (None, mkWorld obj (tenant w) tr)
       | inr err => Some (Some err, mkWorld (resource w) (tenant w) tr)
       end.

Definition write (op : DaemonSet.t → S → option error * S)
    (call : DaemonSet.t → client.Call) : M S (option error) :=
  λ w, let (err, s) := op (resource w) (tenant w) in
       Some (err, mkWorld (resource w) s (trace w ++ [Called (call (resource w))])).

(** [r.tenantClient.Create(ctx, r.resource)] and its siblings. *)
Definition tenantClient_Create : M S (option error) :=
  write client.Create client.CallCreate.
Definition tenantClient_Update : M S (option error) :=
  write client.Update client.CallUpdate.
Definition tenantClient_Delete : M S (option error) :=
  write client.Delete client.CallDelete.
End tenantClient.

(** ** The create-or-update primitive *)

Module controllerutil.
Inductive OperationResult :=
| OperationResultNone
| OperationResultCreated
| OperationResultUpdated.

Definition MutateFn (S : Type) : Type := M S (option error).

Section primitive.
Context {S : Type} `{!client.Client S}.

(** The primitive's guard around the mutate function: the function must
    leave name and namespace alone. *)
Definition mutate (f : MutateFn S) (key : client.ObjectKey) : M S (option error) :=
  err ← f;
  match err with
  | Some err => mret (Some err)
  | None =>
      obj ← get_resource;
      if bool_decide (key = client.ObjectKeyFromObject obj) then mret None
      else mret (Some (errorString
             "MutateFn cannot mutate object name and/or object namespace"))
  end.

(** [controllerutil.CreateOrUpdate(ctx, r.tenantClient, r.resource, f)],
    the read-modify-write primitive of controller-runtime that the spec
    describes: it re-reads the object by identity, runs [f] on it, and
    creates it when it was absent or updates it when [f] changed it.
    The object it is handed and the object [f] writes are the same
    [r.resource]. *)
Definition CreateOrUpdate (f : MutateFn S) : M S (OperationResult * option error) :=
  obj ← get_resource;
  let key := client.ObjectKeyFromObject obj in
  err ← tenantClient_Get key;
  match err with
  | Some err =>
      if negb (k8serrors.IsNotFound err) then mret (OperationResultNone, Some err)
      else
        err ← mutate f key;
        match err with
        | Some err => mret (OperationResultNone, Some err)
        | None =>
            err ← tenantClient_Create;
            match err with
            | Some err => mret (OperationResultNone, Some err)
            | None => mret (OperationResultCreated, None)
            end
        end
  | None =>
      existing ← get_resource;
      err ← mutate f key;
      match err with
      | Some err => mret (OperationResultNone, Some err)
      | None =>
          obj ← get_resource;
          if bool_decide (existing = obj) then mret (OperationResultNone, None)
          else
            err ← tenantClient_Update;
            match err with
            | Some err => mret (OperationResultNone, Some err)
            | None => mret (OperationResultUpdated, None)
            end
      end
  end.
End primitive.
End controllerutil.


(** ** Paths into [r.resource] *)

(** [obj.Spec.Template.Spec] *)
Definition podSpec (obj : DaemonSet.t) : PodSpec.t :=
  PodTemplateSpec.Spec (DaemonSetSpec.Template (DaemonSet.Spec obj)).

Definition over_Template (f : PodTemplateSpec.t → PodTemplateSpec.t) :
    DaemonSet.t → DaemonSet.t :=
  DaemonSet.over_Spec (DaemonSetSpec.over_Template f).

Definition over_podSpec (f : PodSpec.t → PodSpec.t) : DaemonSet.t → DaemonSet.t :=
  over_Template (PodTemplateSpec.over_Spec f).

(** [obj.Spec.Template.Spec.Containers] *)
Definition containers (obj : DaemonSet.t) : list Container.t :=
  PodSpec.Containers (podSpec obj).

(** [r.resource.Spec.Template.Spec.Containers[0].field = v], with [set] the
    assignment to the field: indexing an empty slice panics. *)
Definition assign_Containers_0 {S} (set : Container.t → Container.t) : M S unit :=
  obj ← get_resource;
  match containers obj with
  | c :: rest =>
      modify_resource (over_podSpec (PodSpec.set_Containers (set c :: rest)))
  | [] => panic
  end.

(** [fmt.Sprintf("%d", n)] *)
Definition Sprintf_d (n : Z) : string := NilZero.string_of_int (Z.to_int n).

(** ** The agent *)

Module Agent.
Section agent.
Context {S : Type} `{!client.Client S}.

(** Declarations of the repository that [agent.go] uses and that are not
    among the sources: two constants of the package, the label helper, and
    the address method of the control plane, which gives the address and
    the port or an error. *)
Variable AgentName : string.
Variable agentTokenName : string.
Variable KamajiLabels : string → string → gmap string string.
Variable AssignedControlPlaneAddress : TenantControlPlane.t → string * Z + error.

Definition is_nil {A} (p : option A) : bool :=
  match p with
  | None => true
  | Some _ => false
  end.

Definition ShouldStatusBeUpdated (tenantControlPlane : TenantControlPlane.t) : bool :=
  is_nil (TenantControlPlane.addon tenantControlPlane)
  && (String.length
        (ExternalKubernetesObjectStatus.Namespace
           (KonnectivityStatus.Agent (TenantControlPlane.addonStatus tenantControlPlane)))
      =? 0)%nat.

Definition ShouldCleanup (tenantControlPlane : TenantControlPlane.t) : bool :=
  is_nil (TenantControlPlane.addon tenantControlPlane).

Definition GetName : string := "konnectivity-agent".

Definition CleanUp (_ : TenantControlPlane.t) : M S (bool * option error) :=
  err ← tenantClient_Delete;
  match err with
  | Some err =>
      if k8serrors.IsNotFound err then mret (false, None)
      else
        logger_Error GetName err "cannot delete the requested resource";;
        mret (false, Some err)
  | None => mret (true, None)
  end.

Definition mutate (tenantControlPlane : TenantControlPlane.t) : controllerutil.MutateFn S :=
  match AssignedControlPlaneAddress tenantControlPlane with
  | inr err =>
      logger_Error GetName err "unable to retrieve the Tenant Control Plane address";;
      mret (Some err)
  | inl (address, _) =>
      modify_resource
        (DaemonSet.SetLabels
           (KamajiLabels (TenantControlPlane.GetName tenantControlPlane) GetName));;

      obj ← get_resource;
      (if is_nil (DaemonSetSpec.Selector (DaemonSet.Spec obj)) then
         modify_resource
           (DaemonSet.over_Spec (DaemonSetSpec.set_Selector (Some LabelSelector.zero)))
       else mret tt);;
      obj ← get_resource;
      selector ← deref (DaemonSetSpec.Selector (DaemonSet.Spec obj));
      modify_resource
        (DaemonSet.over_Spec
           (DaemonSetSpec.set_Selector
              (Some (LabelSelector.set_MatchLabels {[ "k8s-app" := AgentName ]} selector))));;

      modify_resource
        (over_Template (λ template,
           PodTemplateSpec.SetLabels
             (utilities.MergeMaps
                [PodTemplateSpec.GetLabels template; {[ "k8s-app" := AgentName ]}])
             template));;

      modify_resource (over_podSpec (PodSpec.set_PriorityClassName "system-cluster-critical"));;
      modify_resource
        (over_podSpec
           (PodSpec.set_Tolerations
              [{| Toleration.Key := "CriticalAddonsOnly";
                  Toleration.Operator := "Exists";
                  Toleration.Value := EmptyString;
                  Toleration.Effect := EmptyString;
                  Toleration.TolerationSeconds := None |}]));;
      modify_resource
        (over_podSpec (PodSpec.set_NodeSelector {[ "kubernetes.io/os" := "linux" ]}));;
      modify_resource (over_podSpec (PodSpec.set_ServiceAccountName AgentName));;
      modify_resource
        (over_podSpec
           (PodSpec.set_Volumes
              [{| Volume.Name := agentTokenName;
                  Volume.VolumeSource :=
                    {| VolumeSource.Projected := Some
                         {| ProjectedVolumeSource.Sources :=
                              [{| VolumeProjection.ServiceAccountToken := Some
                                    {| ServiceAccountTokenProjection.Path := agentTokenName;
                                       ServiceAccountTokenProjection.Audience :=
                                         ExternalKubernetesObjectStatus.Name
                                           (KonnectivityStatus.ClusterRoleBinding
                                              (TenantControlPlane.addonStatus
                                                 tenantControlPlane));
                                       ServiceAccountTokenProjection.ExpirationSeconds :=
                                         Some 3600 |} |}];
                            ProjectedVolumeSource.DefaultMode := Some 420 |} |} |}]));;

      obj ← get_resource;
      (if negb (length (containers obj) =? 1)%nat then
         modify_resource (over_podSpec (PodSpec.set_Containers [Container.zero]))
       else mret tt);;

      konnectivity ← deref (TenantControlPlane.addon tenantControlPlane);
      let agentSpec := KonnectivitySpec.KonnectivityAgentSpec konnectivity in
      assign_Containers_0
        (Container.set_Image
           (KonnectivityAgentSpec.Image agentSpec +:+ ":"
            +:+ KonnectivityAgentSpec.Version agentSpec));;
      assign_Containers_0 (Container.set_Name AgentName);;
      assign_Containers_0 (Container.set_Command ["/proxy-agent"]);;

      let args := utilities.ArgsFromSliceToMap (KonnectivityAgentSpec.ExtraArgs agentSpec) in

      let args := <[ "-v" := "8" ]> args in
      let args := <[ "--logtostderr" := "true" ]> args in
      let args :=
        <[ "--ca-cert" := "/var/run/secrets/kubernetes.io/serviceaccount/ca.crt" ]> args in
      let args := <[ "--proxy-server-host" := address ]> args in
      let args :=
        <[ "--proxy-server-port" :=
             Sprintf_d (KonnectivityServerSpec.Port
                          (KonnectivitySpec.KonnectivityServerSpec konnectivity)) ]> args in
      let args := <[ "--admin-server-port" := "8133" ]> args in
      let args := <[ "--health-server-port" := "8134" ]> args in
      let args :=
        <[ "--service-account-token-path" :=
             "/var/run/secrets/tokens/konnectivity-agent-token" ]> args in

      assign_Containers_0 (Container.set_Args (utilities.ArgsFromMapToSlice args));;
      assign_Containers_0
        (Container.set_VolumeMounts
           [{| VolumeMount.MountPath := "/var/run/secrets/tokens";
               VolumeMount.Name := agentTokenName;
               VolumeMount.ReadOnly := false;
               VolumeMount.SubPath := EmptyString |}]);;
      assign_Containers_0
        (Container.set_LivenessProbe
           (Some {| Probe.ProbeHandler :=
                      {| ProbeHandler.HTTPGet := Some
                           {| HTTPGetAction.Path := "/healthz";
                              HTTPGetAction.Port := intstr.FromInt 8134;
                              HTTPGetAction.Scheme := URISchemeHTTP;
                              HTTPGetAction.Host := EmptyString |} |};
                    Probe.InitialDelaySeconds := 15;
                    Probe.TimeoutSeconds := 15;
                    Probe.PeriodSeconds := 10;
                    Probe.SuccessThreshold := 1;
                    Probe.FailureThreshold := 3 |}));;

      mret None
  end.

Definition CreateOrUpdate (tenantControlPlane : TenantControlPlane.t) :
    M S (controllerutil.OperationResult * option error) :=
  if negb (is_nil (TenantControlPlane.addon tenantControlPlane)) then
    controllerutil.CreateOrUpdate (mutate tenantControlPlane)
  else mret (controllerutil.OperationResultNone, None).

(** [now] is the time that [metav1.Now()] reads off the clock. The method
    writes through [tenantControlPlane]; the control plane it leaves is
    returned with the error. *)
Definition UpdateTenantControlPlaneStatus (now : Time)
    (tenantControlPlane : TenantControlPlane.t) :
    M S (TenantControlPlane.t * option error) :=
  if negb (is_nil (TenantControlPlane.addon tenantControlPlane)) then
    obj ← get_resource;
    mret (TenantControlPlane.set_agentStatus
            (ExternalKubernetesObjectStatus.mk
               (DaemonSet.GetName obj) (DaemonSet.GetNamespace obj) now)
            tenantControlPlane,
          None)
  else
    mret (TenantControlPlane.set_agentStatus
            ExternalKubernetesObjectStatus.zero tenantControlPlane,
          None).

(** *** The object that [mutate] converges to

    What a successful [mutate] leaves in [r.resource], written as one
    value: [mutate_run] below shows that running the assignments of
    [mutate] one after the other yields exactly this. *)

Definition agentArgs (address : string) (konnectivity : KonnectivitySpec.t) :
    gmap string string :=
  <[ "--service-account-token-path" :=
       "/var/run/secrets/tokens/konnectivity-agent-token" ]>
  (<[ "--health-server-port" := "8134" ]>
  (<[ "--admin-server-port" := "8133" ]>
  (<[ "--proxy-server-port" :=
        Sprintf_d (KonnectivityServerSpec.Port
                     (KonnectivitySpec.KonnectivityServerSpec konnectivity)) ]>
  (<[ "--proxy-server-host" := address ]>
  (<[ "--ca-cert" := "/var/run/secrets/kubernetes.io/serviceaccount/ca.crt" ]>
  (<[ "--logtostderr" := "true" ]>
  (<[ "-v" := "8" ]>
  (utilities.ArgsFromSliceToMap
     (KonnectivityAgentSpec.ExtraArgs
        (KonnectivitySpec.KonnectivityAgentSpec konnectivity)))))))))).

(** The arguments that lines 169 to 176 of [agent.go] assign, flag and
    value, for the resolved address and the port of the spec. *)
Definition builtinArgs (address : string) (port : Z) : list (string * string) :=
  [ ("-v", "8");
    ("--logtostderr", "true");
    ("--ca-cert", "/var/run/secrets/kubernetes.io/serviceaccount/ca.crt");
    ("--proxy-server-host", address);
    ("--proxy-server-port", Sprintf_d port);
    ("--admin-server-port", "8133");
    ("--health-server-port", "8134");
    ("--service-account-token-path", "/var/run/secrets/tokens/konnectivity-agent-token") ].

Definition agentProbe : Probe.t :=
  {| Probe.ProbeHandler :=
       {| ProbeHandler.HTTPGet := Some
            {| HTTPGetAction.Path := "/healthz";
               HTTPGetAction.Port := intstr.Int 8134;
               HTTPGetAction.Scheme := "HTTP";
               HTTPGetAction.Host := EmptyString |} |};
     Probe.InitialDelaySeconds := 15;
     Probe.TimeoutSeconds := 15;
     Probe.PeriodSeconds := 10;
     Probe.SuccessThreshold := 1;
     Probe.FailureThreshold := 3 |}.

Definition agentMount : VolumeMount.t :=
  {| VolumeMount.MountPath := "/var/run/secrets/tokens";
     VolumeMount.Name := agentTokenName;
     VolumeMount.ReadOnly := false;
     VolumeMount.SubPath := EmptyString |}.

Definition agentToleration : Toleration.t :=
  {| Toleration.Key := "CriticalAddonsOnly";
     Toleration.Operator := "Exists";
     Toleration.Value := EmptyString;
     Toleration.Effect := EmptyString;
     Toleration.TolerationSeconds := None |}.

Definition agentVolume (tenantControlPlane : TenantControlPlane.t) : Volume.t :=
  {| Volume.Name := agentTokenName;
     Volume.VolumeSource :=
       {| VolumeSource.Projected := Some
            {| ProjectedVolumeSource.Sources :=
                 [{| VolumeProjection.ServiceAccountToken := Some
                       {| ServiceAccountTokenProjection.Path := agentTokenName;
                          ServiceAccountTokenProjection.Audience :=
                            ExternalKubernetesObjectStatus.Name
                              (KonnectivityStatus.ClusterRoleBinding
                                 (TenantControlPlane.addonStatus tenantControlPlane));
                          ServiceAccountTokenProjection.ExpirationSeconds := Some 3600 |} |}];
               ProjectedVolumeSource.DefaultMode := Some 420 |} |} |}.

(** The agent's container over the container [c] it starts from. *)
Definition agentContainer (address : string) (konnectivity : KonnectivitySpec.t)
    (c : Container.t) : Container.t :=
  Container.mk
    AgentName
    (KonnectivityAgentSpec.Image (KonnectivitySpec.KonnectivityAgentSpec konnectivity)
     +:+ ":"
     +:+ KonnectivityAgentSpec.Version (KonnectivitySpec.KonnectivityAgentSpec konnectivity))
    ["/proxy-agent"]
    (utilities.ArgsFromMapToSlice (agentArgs address konnectivity))
    (Container.WorkingDir c) (Container.Ports c) (Container.Env c)
    (Container.Resources c)
    [agentMount]
    (Some agentProbe)
    (Container.ImagePullPolicy c).

(** The container [mutate] starts from: the only one, or else a zeroed one. *)
Definition keptContainer (cs : list Container.t) : Container.t :=
  match cs with
  | [c] => c
  | _ => Container.zero
  end.

Definition desired (address : string) (konnectivity : KonnectivitySpec.t)
    (tenantControlPlane : TenantControlPlane.t) (obj : DaemonSet.t) : DaemonSet.t :=
  let spec := DaemonSet.Spec obj in
  let template := DaemonSetSpec.Template spec in
  let pod := PodTemplateSpec.Spec template in
  DaemonSet.mk
    (ObjectMeta.SetLabels
       (KamajiLabels (TenantControlPlane.GetName tenantControlPlane) GetName)
       (DaemonSet.ObjectMeta obj))
    (DaemonSetSpec.mk
       (Some (LabelSelector.set_MatchLabels {[ "k8s-app" := AgentName ]}
                (default LabelSelector.zero (DaemonSetSpec.Selector spec))))
       (PodTemplateSpec.mk
          (ObjectMeta.SetLabels
             (utilities.MergeMaps
                [PodTemplateSpec.GetLabels template; {[ "k8s-app" := AgentName ]}])
             (PodTemplateSpec.ObjectMeta template))
          (PodSpec.mk
             [agentVolume tenantControlPlane]
             [agentContainer address konnectivity (keptContainer (PodSpec.Containers pod))]
             (PodSpec.DNSPolicy pod)
             {[ "kubernetes.io/os" := "linux" ]}
             AgentName
             (PodSpec.HostNetwork pod)
             [agentToleration]
             "system-cluster-critical"))
       (DaemonSetSpec.MinReadySeconds spec)).

End agent.

(** *** Define

    [Define] runs on the [Agent] struct before there is a world: it is the
    method that gives [r.resource] and [r.tenantClient] their values. *)

Section define.
Context {S C : Type}.

(** The [Agent] struct: the two pointers that [Define] assigns, either of
    which is nil in a struct that was only allocated, and between them the
    client of the management cluster, of a type [C] of its own, which
    [Define] reads and hands to [GetTenantClient]. A tenant client is
    modelled by the tenant cluster it is bound to. *)
Record Struct := mkStruct {
  resource_ptr : option DaemonSet.t;
  Client : C;
  tenantClient_ptr : option S }.

(** Declarations of the repository that [Define] uses and that are not
    among the sources: the two constants of the package, and the helper
    that resolves, through the management client, the tenant client of a
    control plane, and returns a client and an error. *)
Variable AgentName : string.
Variable AgentNamespace : string.
Variable GetTenantClient : C → TenantControlPlane.t → option S * option error.

(** The composite literal [&appsv1.DaemonSet{ObjectMeta: ...}] of [Define]:
    name and namespace, every other field zero. *)
Definition identity : DaemonSet.t :=
  DaemonSet.mk
    {| ObjectMeta.Name := AgentName;
       ObjectMeta.Namespace := AgentNamespace;
       ObjectMeta.Labels := ∅;
       ObjectMeta.Annotations := ∅ |}
    DaemonSetSpec.zero.

(** [Define] gives the error it returns, the struct it leaves and the
    events it adds. *)
Definition Define (tenantControlPlane : TenantControlPlane.t) (r : Struct) :
    option error * Struct * list Event :=
  let r := mkStruct (Some identity) (Client r) (tenantClient_ptr r) in
  let (tenantClient, err) := GetTenantClient (Client r) tenantControlPlane in
  let r := mkStruct (resource_ptr r) (Client r) tenantClient in
  match err with
  | Some err =>
      (Some err, r,
       [LoggedError GetName err "unable to retrieve the Tenant Control Plane client"])
  | None => (None, r, [])
  end.

(** The world of a struct whose two pointers are set, after the events
    [events]. *)
Definition world (r : Struct) (events : list Event) : option (World S) :=
  match resource_ptr r, tenantClient_ptr r with
  | Some obj, Some s => Some (mkWorld obj s events)
  | _, _ => None
  end.

End define.
Arguments Struct : clear implicits.
End Agent.

(** ** The reconcile pass *)

Module lifecycle.
Section pass.
Context {S C : Type} `{!client.Client S}.
Variable AgentName : string.
Variable AgentNamespace : string.
Variable agentTokenName : string.
Variable KamajiLabels : string → string → gmap string string.
Variable AssignedControlPlaneAddress : TenantControlPlane.t → string * Z + error.
Variable GetTenantClient : C → TenantControlPlane.t → option S * option error.

(** The struct that a world leaves behind. *)
Definition leave (managementClient : C) (w : World S) : Agent.Struct S C :=
  Agent.mkStruct (Some (resource w)) managementClient (Some (tenant w)).

(** Modelled from the spec: the step of the pass between [Define] and the
    status update. The orchestrator that calls the agent is not among the
    sources; the spec has it invoke "either (a) create-or-update with the
    Mutator as the convergence function, or (b) cleanup", the latter when
    [ShouldCleanup] holds. Only the error of the step matters to the
    pass. *)
Definition apply (tenantControlPlane : TenantControlPlane.t) : M S (option error) :=
  if Agent.ShouldCleanup tenantControlPlane then
    result ← Agent.CleanUp tenantControlPlane;
    mret result.2
  else
    result ← Agent.CreateOrUpdate AgentName agentTokenName KamajiLabels
               AssignedControlPlaneAddress tenantControlPlane;
    mret result.2.

(** Modelled from the spec: one reconcile pass over an agent, the work of
    the orchestrator that is not among the sources. The spec's pass is
    "resolve client, mutate/apply, update status", in this order; "all
    fatal errors abort the current pass and are returned to the caller",
    and "a failed reconcile leaves the previous status untouched (status is
    only overwritten on completion of a pass, enabled or disabled)". The
    pass gives the error it returns, the control plane and the struct it
    leaves, and the events of the pass; it panics where it would go
    through a nil pointer. *)
Definition pass (now : Time) (tenantControlPlane : TenantControlPlane.t)
    (r : Agent.Struct S C) :
    option (option error * TenantControlPlane.t * Agent.Struct S C * list Event) :=
  let '(err, r, events) :=
    Agent.Define AgentName AgentNamespace GetTenantClient tenantControlPlane r in
  match err with
  | Some err => Some (Some err, tenantControlPlane, r, events)
  | None =>
      match Agent.world r events with
      | None => None
      | Some w =>
          match apply tenantControlPlane w with
          | None => None
          | Some (Some err, w) =>
              Some (Some err, tenantControlPlane, leave (Agent.Client r) w, trace w)
          | Some (None, w) =>
              match Agent.UpdateTenantControlPlaneStatus now tenantControlPlane w with
              | None => None
              | Some ((tenantControlPlane, err), w) =>
                  Some (err, tenantControlPlane, leave (Agent.Client r) w, trace w)
              end
          end
      end
  end.

End pass.
End lifecycle.


(** ** An in-memory tenant cluster

    A cluster that holds DaemonSets by namespace and name and answers like
    an API server that nothing else talks to: reading, updating or deleting
    an absent object is a NotFound error, creating a present one an
    AlreadyExists error. *)

Module memory.
Definition index (key : client.ObjectKey) : string * string :=
  (client.Namespace key, client.Name key).

Definition notFound (key : client.ObjectKey) : error :=
  StatusError StatusReasonNotFound (client.Name key).

Definition Get (key : client.ObjectKey) (s : gmap (string * string) DaemonSet.t) :
    DaemonSet.t + error :=
  match s !! index key with
  | Some obj => inl obj
  | None => inr (notFound key)
  end.

Definition Create (obj : DaemonSet.t) (s : gmap (string * string) DaemonSet.t) :
    option error * gmap (string * string) DaemonSet.t :=
  let key := client.ObjectKeyFromObject obj in
  match s !! index key with
  | Some _ => (Some (StatusError StatusReasonAlreadyExists (client.Name key)), s)
  | None => (None, <[index key := obj]> s)
  end.

Definition Update (obj : DaemonSet.t) (s : gmap (string * string) DaemonSet.t) :
    option error * gmap (string * string) DaemonSet.t :=
  let key := client.ObjectKeyFromObject obj in
  match s !! index key with
  | Some _ => (None, <[index key := obj]> s)
  | None => (Some (notFound key), s)
  end.

Definition Delete (obj : DaemonSet.t) (s : gmap (string * string) DaemonSet.t) :
    option error * gmap (string * string) DaemonSet.t :=
  let key := client.ObjectKeyFromObject obj in
  match s !! index key with
  | Some _ => (None, delete (index key) s)
  | None => (Some (notFound key), s)
  end.

#[global] Instance Client : client.Client (gmap (string * string) DaemonSet.t) :=
  {| client.Get := Get; client.Create := Create;
     client.Update := Update; client.Delete := Delete |}.
End memory.

(** ** A sample control plane

    The example of the spec: image [agent], version [v1], proxy server port
    8132, and an extra argument that tries to turn [--logtostderr] off. *)

Module sample.
Definition AgentName : string := "konnectivity-agent".
Definition AgentNamespace : string := "kube-system".
Definition agentTokenName : string := "konnectivity-agent-token".

Definition KamajiLabels (tcpName resourceName : string) : gmap string string :=
  {[ "kamaji.clastix.io/name" := tcpName;
     "kamaji.clastix.io/component" := resourceName ]}.

Definition exposed (_ : TenantControlPlane.t) : string * Z + error :=
  inl ("203.0.113.7", 6443).

Definition notExposed (_ : TenantControlPlane.t) : string * Z + error :=
  inr (errorString "the Tenant Control Plane is not yet exposed").

Definition status (agent : ExternalKubernetesObjectStatus.t) : TenantControlPlaneStatus.t :=
  TenantControlPlaneStatus.mk
    (AddonsStatus.mk
       (KonnectivityStatus.mk agent
          (ExternalKubernetesObjectStatus.mk "konnectivity-crb" EmptyString 0))).

Definition konnectivity : KonnectivitySpec.t :=
  KonnectivitySpec.mk
    (KonnectivityServerSpec.mk 8132)
    (KonnectivityAgentSpec.mk "agent" "v1" ["--logtostderr=false"]).

Definition meta : ObjectMeta.t := ObjectMeta.mk "tenant-a" "tenants" ∅ ∅.

Definition enabled : TenantControlPlane.t :=
  TenantControlPlane.mk meta
    (TenantControlPlaneSpec.mk (AddonsSpec.mk (Some konnectivity)))
    (status ExternalKubernetesObjectStatus.zero).

(** The add-on was switched off and the status still names the agent. *)
Definition disabledPopulated : TenantControlPlane.t :=
  TenantControlPlane.mk meta
    (TenantControlPlaneSpec.mk (AddonsSpec.mk None))
    (status (ExternalKubernetesObjectStatus.mk AgentName AgentNamespace 1667260800)).

(** The add-on is off and the status is empty. *)
Definition disabledEmpty : TenantControlPlane.t :=
  TenantControlPlane.mk meta
    (TenantControlPlaneSpec.mk (AddonsSpec.mk None))
    (status ExternalKubernetesObjectStatus.zero).

(** The DaemonSet as [Define] leaves it: identity only. *)
Definition defined : DaemonSet.t :=
  DaemonSet.mk (ObjectMeta.mk AgentName AgentNamespace ∅ ∅) DaemonSetSpec.zero.

(** A DaemonSet that already runs one container with settings of its own
    and a second one. *)
Definition sidecar : Container.t :=
  Container.mk "sidecar" "busybox:1" ["sleep"] ["3600"] "/" [] [] ResourceRequirements.zero
    [] None "Always".

Definition tuned : Container.t :=
  Container.mk "old" "agent:v0" [] ["--stale"] "/work"
    [ContainerPort.mk "health" 8134 "TCP"]
    [EnvVar.mk "HTTPS_PROXY" "http://proxy:3128"]
    (ResourceRequirements.mk {[ "memory" := "64Mi" ]} {[ "cpu" := "50m" ]})
    [] None "IfNotPresent".

Definition withContainers (cs : list Container.t) : DaemonSet.t :=
  over_podSpec (PodSpec.set_Containers cs) defined.

Definition world (obj : DaemonSet.t) (s : gmap (string * string) DaemonSet.t) :
    World (gmap (string * string) DaemonSet.t) :=
  mkWorld obj s [].

(** The agent's DaemonSet for the sample control plane, over [obj]. *)
Definition agent (obj : DaemonSet.t) : DaemonSet.t :=
  Agent.desired AgentName agentTokenName KamajiLabels "203.0.113.7" konnectivity
    enabled obj.
(** A DaemonSet that was edited by hand: labels, annotations, selector and
    scheduling of its own, and the container [tuned]. *)
Definition edited : DaemonSet.t :=
  DaemonSet.mk
    {| ObjectMeta.Name := AgentName;
       ObjectMeta.Namespace := AgentNamespace;
       ObjectMeta.Labels := {[ "stale" := "yes" ]};
       ObjectMeta.Annotations := {[ "note" := "keep" ]} |}
    {| DaemonSetSpec.Selector := Some
         {| LabelSelector.MatchLabels := {[ "app" := "legacy" ]};
            LabelSelector.MatchExpressions :=
              [LabelSelectorRequirement.mk "tier" "In" ["node"]] |};
       DaemonSetSpec.Template :=
         {| PodTemplateSpec.ObjectMeta :=
              {| ObjectMeta.Name := EmptyString;
                 ObjectMeta.Namespace := EmptyString;
                 ObjectMeta.Labels := {[ "team" := "net"; "k8s-app" := "other" ]};
                 ObjectMeta.Annotations := {[ "checksum" := "abc" ]} |};
            PodTemplateSpec.Spec :=
              {| PodSpec.Volumes := [];
                 PodSpec.Containers := [tuned];
                 PodSpec.DNSPolicy := "ClusterFirst";
                 PodSpec.NodeSelector := {[ "zone" := "a" ]};
                 PodSpec.ServiceAccountName := "default";
                 PodSpec.HostNetwork := true;
                 PodSpec.Tolerations :=
                   [{| Toleration.Key := "dedicated";
                       Toleration.Operator := "Equal";
                       Toleration.Value := "infra";
                       Toleration.Effect := "NoSchedule";
                       Toleration.TolerationSeconds := None |}];
                 PodSpec.PriorityClassName := "low" |} |};
       DaemonSetSpec.MinReadySeconds := 5 |}.

Definition key : client.ObjectKey := client.mkKey AgentNamespace AgentName.

Definition unavailableError : error :=
  StatusError StatusReasonInternalError "the server is currently unable to handle the request".

(** A tenant cluster that cannot be reached: every call fails. *)
Definition unavailable : client.Client unit :=
  {| client.Get := λ _ _, inr unavailableError;
     client.Create := λ _ s, (Some unavailableError, s);
     client.Update := λ _ s, (Some unavailableError, s);
     client.Delete := λ _ s, (Some unavailableError, s) |}.

Definition conflictError : error :=
  StatusError StatusReasonConflict "the object has been modified".

(** A tenant cluster that can be read and, for the caller, not written:
    someone else got there first. *)
Definition contended : client.Client (gmap (string * string) DaemonSet.t) :=
  {| client.Get := memory.Get;
     client.Create := λ obj s,
       (Some (StatusError StatusReasonAlreadyExists (DaemonSet.GetName obj)), s);
     client.Update := λ _ s, (Some conflictError, s);
     client.Delete := λ _ s, (Some conflictError, s) |}.

(** Resolutions of the tenant client through a management client that
    carries no data: one that succeeds with a client for an empty cluster,
    one that fails. *)
Definition resolved (_ : unit) (_ : TenantControlPlane.t) :
    option (gmap (string * string) DaemonSet.t) * option error :=
  (Some ∅, None).

Definition unresolvedError : error := errorString "cannot retrieve the kubeconfig".

Definition unresolved (_ : unit) (_ : TenantControlPlane.t) :
    option (gmap (string * string) DaemonSet.t) * option error :=
  (None, Some unresolvedError).

(** A struct that was only allocated. *)
Definition allocated : Agent.Struct (gmap (string * string) DaemonSet.t) unit :=
  Agent.mkStruct None tt None.

End sample.


(** * Properties *)

(** ** The helpers *)

#[local] Arguments utilities.MergeMaps : simpl never.
#[local] Arguments utilities.ArgsFromMapToSlice : simpl never.
#[local] Arguments utilities.ArgsFromSliceToMap : simpl never.

Lemma MergeMaps_pair (a b : gmap string string) :
  utilities.MergeMaps [a; b] = b ∪ a.
Proof. unfold utilities.MergeMaps. cbn [foldl]. by rewrite (right_id_L ∅ (∪)). Qed.

Lemma MergeMaps_again (a b : gmap string string) :
  utilities.MergeMaps [utilities.MergeMaps [a; b]; b] = utilities.MergeMaps [a; b].
Proof. rewrite !MergeMaps_pair. by rewrite (assoc_L (∪)), (idemp_L (∪)). Qed.

(** The serialized list has one entry per binding of the map, and no other. *)
Lemma elem_of_ArgsFromMapToSlice (m : gmap string string) (arg : string) :
  arg ∈ utilities.ArgsFromMapToSlice m ↔
  ∃ flag value, m !! flag = Some value ∧ arg = utilities.render (flag, value).
Proof.
  unfold utilities.ArgsFromMapToSlice. rewrite list_elem_of_fmap. split.
  - intros [[flag value] [-> Hin]]. exists flag, value. split; [|done].
    rewrite merge_sort_Permutation in Hin. by apply elem_of_map_to_list.
  - intros (flag & value & Hm & ->). exists (flag, value). split; [done|].
    rewrite merge_sort_Permutation. by apply elem_of_map_to_list.
Qed.

#[local] Instance flag_le_total : Total utilities.flag_le.
Proof.
  intros a b. unfold utilities.flag_le.
  destruct (String.leb_total a.1 b.1) as [E|E]; rewrite E; [by left|by right].
Qed.

(** The order of the serialized list is the order of the flags. *)
Lemma ArgsFromMapToSlice_sorted (m : gmap string string) :
  ∃ entries, utilities.ArgsFromMapToSlice m = utilities.render <$> entries
             ∧ Sorted utilities.flag_le entries
             ∧ entries ≡ₚ map_to_list m.
Proof.
  exists (merge_sort utilities.flag_le (map_to_list m)). split; [done|]. split.
  - apply (Sorted_merge_sort _).
  - apply merge_sort_Permutation.
Qed.

Lemma splitFlag_render flag value :
  utilities.noEq flag →
  utilities.splitFlag (utilities.render (flag, value)) = (flag, value).
Proof.
  unfold utilities.render. simpl. induction flag as [|c flag IH]; simpl.
  - done.
  - intros [Hc Hflag]%andb_prop_elim. destruct (Ascii.eqb c "=") eqn:E; [done|].
    by rewrite IH.
Qed.

(** Two entries with proper flags that render alike are the same entry. *)
Lemma render_inj flag flag' value value' :
  utilities.noEq flag → utilities.noEq flag' →
  utilities.render (flag, value) = utilities.render (flag', value') →
  flag = flag' ∧ value = value'.
Proof.
  intros Hf Hf' E. apply (f_equal utilities.splitFlag) in E.
  rewrite !splitFlag_render in E by done. by inversion E.
Qed.

Lemma splitFlag_noEq arg : utilities.noEq (utilities.splitFlag arg).1.
Proof.
  induction arg as [|c arg IH]; simpl; [done|].
  destruct (Ascii.eqb c "=") eqn:E; [done|].
  destruct (utilities.splitFlag arg) as [flag value]. simpl in *. by rewrite E.
Qed.

Lemma ArgsFromSliceToMap_noEq args flag :
  is_Some (utilities.ArgsFromSliceToMap args !! flag) → utilities.noEq flag.
Proof.
  unfold utilities.ArgsFromSliceToMap.
  cut (∀ m : gmap string string,
         (∀ f, is_Some (m !! f) → utilities.noEq f) →
         is_Some (foldl (λ m arg, let (flag, value) := utilities.splitFlag arg in
                                   <[flag := value]> m) m args !! flag) →
         utilities.noEq flag).
  { intros Hc. apply Hc. intros f. rewrite lookup_empty. by intros [? ?]. }
  induction args as [|arg args IH]; intros m Hm; simpl.
  - apply Hm.
  - apply IH. intros f. pose proof (splitFlag_noEq arg) as Hk.
    destruct (utilities.splitFlag arg) as [k v]. simpl in Hk.
    rewrite lookup_insert. case_decide; [by subst|]. apply Hm.
Qed.

(** ** The agent *)

Section properties.
Context {S C : Type} `{!client.Client S}.
Variable AgentName : string.
Variable AgentNamespace : string.
Variable agentTokenName : string.
Variable KamajiLabels : string → string → gmap string string.
Variable AssignedControlPlaneAddress : TenantControlPlane.t → string * Z + error.
Variable GetTenantClient : C → TenantControlPlane.t → option S * option error.

Local Abbreviation mutate :=
  (Agent.mutate (S:=S) AgentName agentTokenName KamajiLabels AssignedControlPlaneAddress).
Local Abbreviation desired :=
  (Agent.desired AgentName agentTokenName KamajiLabels).
Local Abbreviation CreateOrUpdate :=
  (Agent.CreateOrUpdate (S:=S) AgentName agentTokenName KamajiLabels
     AssignedControlPlaneAddress).
Local Abbreviation pass :=
  (lifecycle.pass AgentName AgentNamespace agentTokenName KamajiLabels
     AssignedControlPlaneAddress GetTenantClient).

(** Running [mutate]: a logged error and an untouched object when the
    address does not resolve, a panic when the add-on section is nil, and
    the [desired] object otherwise. *)
Lemma mutate_run tcp (w : World S) :
  mutate tcp w =
  match AssignedControlPlaneAddress tcp with
  | inr err =>
      Some (Some err,
            mkWorld (resource w) (tenant w)
              (trace w ++ [LoggedError Agent.GetName err
                             "unable to retrieve the Tenant Control Plane address"]))
  | inl (address, _) =>
      match TenantControlPlane.addon tcp with
      | Some konnectivity =>
          Some (None,
                mkWorld (desired address konnectivity tcp (resource w))
                  (tenant w) (trace w))
      | None => None
      end
  end.
Proof.
  unfold Agent.mutate.
  destruct (AssignedControlPlaneAddress tcp) as [[address port]|err]; [|reflexivity].
  destruct w as [[meta [sel [tmeta [vs cs dns ns sa hn tol pc]] mrs]] s tr].
  destruct (TenantControlPlane.addon tcp) as [k|], sel as [sel|], cs as [|c [|c' cs]];
    reflexivity.
Qed.

(** A [mutate] that returns nil had an address and an add-on section to
    work from, and left the [desired] object. *)
Lemma mutate_success tcp (w w' : World S) :
  mutate tcp w = Some (None, w') →
  ∃ address port konnectivity,
    AssignedControlPlaneAddress tcp = inl (address, port)
    ∧ TenantControlPlane.addon tcp = Some konnectivity
    ∧ w' = mkWorld (desired address konnectivity tcp (resource w)) (tenant w) (trace w).
Proof.
  rewrite mutate_run.
  destruct (AssignedControlPlaneAddress tcp) as [[address port]|err]; [|done].
  destruct (TenantControlPlane.addon tcp) as [k|]; [|done].
  intros [= <-]. by exists address, port, k.
Qed.

Lemma desired_again address konnectivity tcp obj :
  desired address konnectivity tcp (desired address konnectivity tcp obj)
  = desired address konnectivity tcp obj.
Proof.
  unfold Agent.desired. cbn. unfold PodTemplateSpec.GetLabels. cbn.
  by rewrite MergeMaps_again.
Qed.

Lemma agentArgs_builtin address konnectivity flag value :
  (flag, value) ∈ Agent.builtinArgs address
     (KonnectivityServerSpec.Port (KonnectivitySpec.KonnectivityServerSpec konnectivity)) →
  Agent.agentArgs address konnectivity !! flag = Some value.
Proof.
  unfold Agent.builtinArgs, Agent.agentArgs. rewrite !elem_of_cons, elem_of_nil.
  intros Hin. repeat destruct Hin as [[= -> ->]|Hin]; [..|done];
    by simplify_map_eq.
Qed.

Lemma agentArgs_noEq address konnectivity flag :
  is_Some (Agent.agentArgs address konnectivity !! flag) → utilities.noEq flag.
Proof.
  unfold Agent.agentArgs. rewrite !lookup_insert_is_Some.
  intros Hin. repeat destruct Hin as [<-|[_ Hin]]; try done.
  by eapply ArgsFromSliceToMap_noEq.
Qed.

(** No event of a short list is a create or update call. *)
Ltac no_write_call :=
  rewrite !elem_of_cons, !elem_of_nil;
  split; intros Hin; repeat (destruct Hin as [Hin|Hin]; [discriminate|]); exact Hin.

(** C1. With the add-on enabled, after [mutate] has returned nil the
    argument list of the container holds every built-in argument with its
    built-in value ([-v=8], [--logtostderr=true], [--ca-cert], the resolved
    address as [--proxy-server-host], the port of the spec as
    [--proxy-server-port], [--admin-server-port=8133],
    [--health-server-port=8134], [--service-account-token-path]), and holds
    no other value for any of these flags, whatever the extra arguments of
    the user say: the built-in value wins on a collision. *)
Theorem mutate_builtin_args_win tcp konnectivity address port (w w' : World S) :
  TenantControlPlane.addon tcp = Some konnectivity →
  AssignedControlPlaneAddress tcp = inl (address, port) →
  mutate tcp w = Some (None, w') →
  ∃ c, containers (resource w') = [c]
       ∧ Forall (λ builtin,
                   utilities.render builtin ∈ Container.Args c
                   ∧ ∀ value, utilities.render (builtin.1, value) ∈ Container.Args c →
                              value = builtin.2)
           (Agent.builtinArgs address
              (KonnectivityServerSpec.Port
                 (KonnectivitySpec.KonnectivityServerSpec konnectivity))).
Proof.
  intros Hk Haddr Hm. rewrite mutate_run, Haddr, Hk in Hm.
  injection Hm as <-. eexists. split; [reflexivity|].
  apply Forall_forall. intros [flag value] Hin.
  apply agentArgs_builtin in Hin. cbn [Container.Args Agent.agentContainer fst snd].
  split.
  - apply elem_of_ArgsFromMapToSlice. by exists flag, value.
  - intros value' (flag' & value'' & Hl & E)%elem_of_ArgsFromMapToSlice.
    apply render_inj in E as [-> ->]; [congruence| |];
      by eapply agentArgs_noEq.
Qed.

(** C3. [mutate] is idempotent: when it has returned nil, running it again
    on what it left, for the same control plane, returns nil again and
    leaves the very same object (argument list included, entry for entry),
    the same cluster and the same trace. *)
Theorem mutate_idempotent tcp (w w' : World S) :
  mutate tcp w = Some (None, w') →
  mutate tcp w' = Some (None, w').
Proof.
  intros (address & port & k & Haddr & Hk & ->)%mutate_success.
  rewrite mutate_run, Haddr, Hk. cbn [resource tenant trace].
  by rewrite desired_again.
Qed.

(** C4. After a [mutate] that returned nil the object has a selector, and
    every key and value of its match-labels is a label of the pod
    template. *)
Theorem mutate_selector_in_template_labels tcp (w w' : World S) :
  mutate tcp w = Some (None, w') →
  ∃ selector,
    DaemonSetSpec.Selector (DaemonSet.Spec (resource w')) = Some selector
    ∧ ∀ key value,
        LabelSelector.MatchLabels selector !! key = Some value →
        PodTemplateSpec.GetLabels (DaemonSetSpec.Template (DaemonSet.Spec (resource w')))
          !! key = Some value.
Proof.
  intros (address & port & k & Haddr & Hk & ->)%mutate_success.
  eexists. split; [reflexivity|]. intros key value.
  cbn. unfold PodTemplateSpec.GetLabels. cbn. rewrite MergeMaps_pair.
  intros Hl. by apply lookup_union_Some_l.
Qed.

(** With the add-on enabled and the address unresolved, [CreateOrUpdate]
    returns an error after its read, and writes nothing. *)
Lemma CreateOrUpdate_unresolved_run tcp err (w : World S) :
  AssignedControlPlaneAddress tcp = inr err →
  is_Some (TenantControlPlane.addon tcp) →
  ∃ err' w' events,
    CreateOrUpdate tcp w = Some ((controllerutil.OperationResultNone, Some err'), w')
    ∧ tenant w' = tenant w
    ∧ trace w' = trace w ++ events
    ∧ ∀ obj, (Called (client.CallCreate obj) ∉ events)
             ∧ (Called (client.CallUpdate obj) ∉ events).
Proof.
  intros Haddr [k Hk]. unfold Agent.CreateOrUpdate. rewrite Hk. cbn [Agent.is_nil negb].
  unfold controllerutil.CreateOrUpdate, controllerutil.mutate, tenantClient_Get.
  cbv [mbind M_bind mret M_ret get_resource]. cbn [resource tenant trace].
  destruct (client.Get _ _) as [obj|e].
  - rewrite mutate_run, Haddr. cbn [resource tenant trace].
    eexists _, _, [_; _]. split; [reflexivity|]. cbn [tenant trace].
    split; [done|]. split; [by rewrite <- (assoc_L (++))|].
    intros obj'. no_write_call.
  - destruct (k8serrors.IsNotFound e); cbn [negb].
    + rewrite mutate_run, Haddr. cbn [resource tenant trace].
      eexists _, _, [_; _]. split; [reflexivity|]. cbn [tenant trace].
      split; [done|]. split; [by rewrite <- (assoc_L (++))|].
      intros obj'. no_write_call.
    + eexists _, _, [_]. split; [reflexivity|]. cbn [tenant trace].
      split; [done|]. split; [done|].
      intros obj'. no_write_call.
Qed.

(** C5. When the address of the control plane does not resolve, [mutate]
    returns the error of the resolution and has written no field of the
    object: object and cluster are as before, the trace has one more line,
    the logged error. The [CreateOrUpdate] around it, with the add-on
    enabled, then returns [OperationResultNone] with an error and leaves
    the cluster as it was, and neither a create nor an update call has
    reached the client. And the reconcile pass around that, once the
    tenant client is resolved, returns an error and leaves the control
    plane as it was handed in, status included; the tenant cluster is as
    the client found it, and no create or update call is among the events
    of the pass. *)
Theorem mutate_unresolved_address tcp err (w : World S) :
  AssignedControlPlaneAddress tcp = inr err →
  (∃ w1, mutate tcp w = Some (Some err, w1)
         ∧ resource w1 = resource w
         ∧ tenant w1 = tenant w
         ∧ trace w1 = trace w ++ [LoggedError Agent.GetName err
                                    "unable to retrieve the Tenant Control Plane address"])
  ∧ (is_Some (TenantControlPlane.addon tcp) →
     ∃ err' w' events,
       CreateOrUpdate tcp w = Some ((controllerutil.OperationResultNone, Some err'), w')
       ∧ tenant w' = tenant w
       ∧ trace w' = trace w ++ events
       ∧ ∀ obj, (Called (client.CallCreate obj) ∉ events)
                ∧ (Called (client.CallUpdate obj) ∉ events))
  ∧ (is_Some (TenantControlPlane.addon tcp) →
     ∀ (now : Time) (r : Agent.Struct S C) (cluster : S),
       GetTenantClient (Agent.Client r) tcp = (Some cluster, None) →
       ∃ err' tcp' r' events,
         pass now tcp r = Some (Some err', tcp', r', events)
         ∧ tcp' = tcp
         ∧ TenantControlPlane.Status tcp' = TenantControlPlane.Status tcp
         ∧ Agent.tenantClient_ptr r' = Some cluster
         ∧ ∀ obj, (Called (client.CallCreate obj) ∉ events)
                  ∧ (Called (client.CallUpdate obj) ∉ events)).
Proof.
  intros Haddr. split; [|split].
  - eexists. rewrite mutate_run, Haddr. by repeat split.
  - intros Hk. exact (CreateOrUpdate_unresolved_run tcp err w Haddr Hk).
  - intros Hk now r cluster Hclient.
    unfold lifecycle.pass, Agent.Define. cbn [Agent.Client]. rewrite Hclient.
    cbn [Agent.world Agent.resource_ptr Agent.tenantClient_ptr].
    unfold lifecycle.apply, Agent.ShouldCleanup. destruct Hk as [k Hk]. rewrite Hk.
    cbn [Agent.is_nil]. cbv [mbind M_bind mret M_ret].
    edestruct (CreateOrUpdate_unresolved_run tcp err
                 (mkWorld (Agent.identity AgentName AgentNamespace) cluster []) Haddr)
      as (err' & w' & events & -> & Htenant & Htrace & Hcalls); [by eexists|].
    cbn [snd]. eexists _, _, _, _. split; [reflexivity|].
    split; [done|]. split; [done|]. cbn [lifecycle.leave Agent.tenantClient_ptr].
    split; [by rewrite Htenant|]. by rewrite Htrace.
Qed.

(** C8. With the add-on disabled, [CreateOrUpdate] returns
    [OperationResultNone] and a nil error and changes nothing: the object in
    memory is the same, the cluster is the same, and the trace is the same,
    so that no call has reached the tenant client. *)
Theorem CreateOrUpdate_disabled tcp (w : World S) :
  TenantControlPlane.addon tcp = None →
  CreateOrUpdate tcp w = Some ((controllerutil.OperationResultNone, None), w).
Proof. intros Hk. unfold Agent.CreateOrUpdate. by rewrite Hk. Qed.

(** C9. After a [mutate] that returned nil, the one container has the
    liveness probe of the contract (HTTP GET of [/healthz] on port 8134,
    scheme HTTP, initial delay 15, timeout 15, period 10, success threshold
    1, failure threshold 3) and mounts the credential volume at
    [/var/run/secrets/tokens]; the pod has that one volume, a projected
    service account token that expires after 3600 seconds, with default
    mode 420. *)
Theorem mutate_boundary_values tcp (w w' : World S) :
  mutate tcp w = Some (None, w') →
  (∃ c, containers (resource w') = [c]
        ∧ Container.LivenessProbe c = Some
            {| Probe.ProbeHandler :=
                 {| ProbeHandler.HTTPGet := Some
                      {| HTTPGetAction.Path := "/healthz";
                         HTTPGetAction.Port := intstr.Int 8134;
                         HTTPGetAction.Scheme := "HTTP";
                         HTTPGetAction.Host := EmptyString |} |};
               Probe.InitialDelaySeconds := 15;
               Probe.TimeoutSeconds := 15;
               Probe.PeriodSeconds := 10;
               Probe.SuccessThreshold := 1;
               Probe.FailureThreshold := 3 |}
        ∧ Container.VolumeMounts c =
            [{| VolumeMount.MountPath := "/var/run/secrets/tokens";
                VolumeMount.Name := agentTokenName;
                VolumeMount.ReadOnly := false;
                VolumeMount.SubPath := EmptyString |}])
  ∧ ∃ token,
      PodSpec.Volumes (podSpec (resource w')) =
        [{| Volume.Name := agentTokenName;
            Volume.VolumeSource :=
              {| VolumeSource.Projected := Some
                   {| ProjectedVolumeSource.Sources :=
                        [{| VolumeProjection.ServiceAccountToken := Some token |}];
                      ProjectedVolumeSource.DefaultMode := Some 420 |} |} |}]
      ∧ ServiceAccountTokenProjection.ExpirationSeconds token = Some 3600
      ∧ ServiceAccountTokenProjection.Path token = agentTokenName
      ∧ ServiceAccountTokenProjection.Audience token =
          ExternalKubernetesObjectStatus.Name
            (KonnectivityStatus.ClusterRoleBinding (TenantControlPlane.addonStatus tcp)).
Proof.
  intros (address & port & k & Haddr & Hk & ->)%mutate_success.
  split; eexists; by repeat split.
Qed.

(** C10. With the add-on enabled and the address resolved, [mutate]
    returns nil on every object, whatever the number of its containers, and
    leaves the pod with one container: the agent's settings over the
    container it keeps. When the pod had exactly one container before, the
    kept container is that one, so that the fields [mutate] does not assign
    (working directory, ports, environment, resources, image pull policy)
    are as they were; when the pod had none or more than one, the kept
    container is a zeroed one, so that these fields are zero and nothing of
    the containers before is left. *)
Theorem mutate_container_frame tcp konnectivity address port (w : World S) :
  TenantControlPlane.addon tcp = Some konnectivity →
  AssignedControlPlaneAddress tcp = inl (address, port) →
  ∃ w' c',
    mutate tcp w = Some (None, w')
    ∧ containers (resource w') = [c']
    ∧ let kept := match containers (resource w) with
                  | [c] => c
                  | _ => Container.zero
                  end in
      c' = Agent.agentContainer AgentName agentTokenName address konnectivity kept
      ∧ Container.WorkingDir c' = Container.WorkingDir kept
      ∧ Container.Ports c' = Container.Ports kept
      ∧ Container.Env c' = Container.Env kept
      ∧ Container.Resources c' = Container.Resources kept
      ∧ Container.ImagePullPolicy c' = Container.ImagePullPolicy kept.
Proof.
  intros Hk Haddr. rewrite mutate_run, Haddr, Hk.
  eexists _, _. split; [reflexivity|]. split; [reflexivity|].
  by repeat split.
Qed.

End properties.

(** C2, as the code has it. [ShouldStatusBeUpdated] holds exactly when the
    add-on is disabled and the namespace in the agent's status is empty. *)
Lemma ShouldStatusBeUpdated_spec tcp :
  Agent.ShouldStatusBeUpdated tcp = true ↔
  TenantControlPlane.addon tcp = None
  ∧ ExternalKubernetesObjectStatus.Namespace
      (KonnectivityStatus.Agent (TenantControlPlane.addonStatus tcp)) = EmptyString.
Proof.
  unfold Agent.ShouldStatusBeUpdated.
  destruct (TenantControlPlane.addon tcp) as [k|]; cbn [Agent.is_nil andb].
  - split; [done|]. by intros [? _].
  - destruct (ExternalKubernetesObjectStatus.Namespace _) as [|c ns]; cbn.
    + done.
    + split; [done|]. by intros [_ ?].
Qed.

(** C2, on two control planes with the add-on disabled:
    [ShouldStatusBeUpdated] is false on the one whose status still names the
    agent, the case in which [UpdateTenantControlPlaneStatus] has a status
    to clear, and true on the one whose status is already empty, on which
    [UpdateTenantControlPlaneStatus] changes nothing. *)
Theorem ShouldStatusBeUpdated_disabled_samples :
  Agent.ShouldStatusBeUpdated sample.disabledPopulated = false
  ∧ Agent.ShouldStatusBeUpdated sample.disabledEmpty = true
  ∧ (∀ now w,
       Agent.UpdateTenantControlPlaneStatus now sample.disabledEmpty
         (sample.world w ∅)
       = Some ((sample.disabledEmpty, None), sample.world w ∅))
  ∧ (∀ now w,
       Agent.UpdateTenantControlPlaneStatus now sample.disabledPopulated
         (sample.world w ∅)
       = Some ((sample.disabledEmpty, None), sample.world w ∅)).
Proof. by repeat split. Qed.

(** C6. [CleanUp] issues one delete of [r.resource]. When the delete
    succeeds it returns [true] and nil; when the delete reports NotFound it
    returns [false] and nil; any other error of the delete is returned as
    it is, with [false]. On a cluster that nothing else writes to, two
    clean-ups in a row both return nil, the second with [false], and the
    first returns [true] exactly when the object was there. *)
Theorem CleanUp_idempotent_delete :
  (∀ {S} `{!client.Client S} tcp (w : World S),
     ∃ w', Agent.CleanUp tcp w =
           Some (match (client.Delete (resource w) (tenant w)).1 with
                 | None => (true, None)
                 | Some err =>
                     if k8serrors.IsNotFound err then (false, None)
                     else (false, Some err)
                 end, w')
           ∧ resource w' = resource w
           ∧ tenant w' = (client.Delete (resource w) (tenant w)).2)
  ∧ (∀ tcp tcp' (w : World (gmap (string * string) DaemonSet.t)),
       ∃ w1 w2,
         Agent.CleanUp tcp w =
           Some ((bool_decide (is_Some (tenant w !! memory.index
                    (client.ObjectKeyFromObject (resource w)))), None), w1)
         ∧ Agent.CleanUp tcp' w1 = Some ((false, None), w2)).
Proof.
  split.
  - intros S0 C tcp w. unfold Agent.CleanUp, tenantClient_Delete, write.
    cbv [mbind M_bind mret M_ret logger_Error emit].
    destruct (client.Delete (resource w) (tenant w)) as [[err|] s]; cbn.
    + destruct (k8serrors.IsNotFound err); eexists; by repeat split.
    + eexists; by repeat split.
  - intros tcp tcp' w. unfold Agent.CleanUp, tenantClient_Delete, write.
    cbv [mbind M_bind mret M_ret logger_Error emit client.Delete memory.Client
         memory.Delete].
    destruct (tenant w !! _) as [obj|] eqn:Hl; cbn [resource tenant trace].
    + eexists _, _. split.
      { rewrite bool_decide_eq_true_2 by done. reflexivity. }
      cbn [resource tenant trace]. rewrite lookup_delete_eq. reflexivity.
    + eexists _, _. split.
      { rewrite bool_decide_eq_false_2 by (by intros [? ?]). reflexivity. }
      cbn [resource tenant trace]. rewrite Hl. reflexivity.
Qed.

(** C7. [UpdateTenantControlPlaneStatus] always returns nil, in every
    world, whatever was or was not deleted before. With the add-on enabled
    the agent's status becomes name and namespace of [r.resource] with the
    time of the call; with the add-on disabled it becomes the zero status.
    Nothing else of the control plane and nothing of the world changes. *)
Theorem UpdateTenantControlPlaneStatus_sets_or_clears :
  ∀ {S} (now : Time) tcp (w : World S),
    ∃ tcp', Agent.UpdateTenantControlPlaneStatus now tcp w = Some ((tcp', None), w)
            ∧ KonnectivityStatus.Agent (TenantControlPlane.addonStatus tcp') =
                match TenantControlPlane.addon tcp with
                | Some _ =>
                    ExternalKubernetesObjectStatus.mk
                      (DaemonSet.GetName (resource w))
                      (DaemonSet.GetNamespace (resource w)) now
                | None => ExternalKubernetesObjectStatus.mk EmptyString EmptyString 0
                end
            ∧ KonnectivityStatus.ClusterRoleBinding (TenantControlPlane.addonStatus tcp')
              = KonnectivityStatus.ClusterRoleBinding (TenantControlPlane.addonStatus tcp)
            ∧ TenantControlPlane.Spec tcp' = TenantControlPlane.Spec tcp
            ∧ TenantControlPlane.ObjectMeta tcp' = TenantControlPlane.ObjectMeta tcp.
Proof.
  intros S0 now tcp w. unfold Agent.UpdateTenantControlPlaneStatus.
  destruct (TenantControlPlane.addon tcp) as [k|]; eexists; by repeat split.
Qed.

(** ** The properties on the sample control plane *)

Section samples.
Local Abbreviation mutate resolve :=
  (Agent.mutate (S:=gmap (string * string) DaemonSet.t)
     sample.AgentName sample.agentTokenName sample.KamajiLabels resolve).
Local Abbreviation CreateOrUpdate resolve :=
  (Agent.CreateOrUpdate (S:=gmap (string * string) DaemonSet.t)
     sample.AgentName sample.agentTokenName sample.KamajiLabels resolve).

Lemma mutate_sample obj s :
  mutate sample.exposed sample.enabled (sample.world obj s)
  = Some (None, sample.world (sample.agent obj) s).
Proof. by rewrite mutate_run. Qed.

(** The example of the spec: the image is [agent:v1] and the arguments are
    the built-in ones, in the order of their flags; the user's
    [--logtostderr=false] is not among them. *)
Example mutate_sample_container :
  containers (sample.agent sample.defined) =
  [Container.mk "konnectivity-agent" "agent:v1" ["/proxy-agent"]
     ["--admin-server-port=8133";
      "--ca-cert=/var/run/secrets/kubernetes.io/serviceaccount/ca.crt";
      "--health-server-port=8134";
      "--logtostderr=true";
      "--proxy-server-host=203.0.113.7";
      "--proxy-server-port=8132";
      "--service-account-token-path=/var/run/secrets/tokens/konnectivity-agent-token";
      "-v=8"]
     EmptyString [] [] ResourceRequirements.zero
     [Agent.agentMount "konnectivity-agent-token"]
     (Some Agent.agentProbe) EmptyString].
Proof. vm_compute. reflexivity. Qed.

Lemma mutate_builtin_args_win_witness :
  TenantControlPlane.addon sample.enabled = Some sample.konnectivity
  ∧ sample.exposed sample.enabled = inl ("203.0.113.7", 6443)
  ∧ mutate sample.exposed sample.enabled (sample.world sample.defined ∅)
    = Some (None, sample.world (sample.agent sample.defined) ∅)
  ∧ ∃ c, containers (sample.agent sample.defined) = [c]
         ∧ Forall (λ builtin,
                     utilities.render builtin ∈ Container.Args c
                     ∧ ∀ value,
                         utilities.render (builtin.1, value) ∈ Container.Args c →
                         value = builtin.2)
             (Agent.builtinArgs "203.0.113.7" 8132).
Proof.
  split; [reflexivity|]. split; [reflexivity|]. split; [apply mutate_sample|].
  apply (mutate_builtin_args_win sample.AgentName sample.agentTokenName
           sample.KamajiLabels sample.exposed sample.enabled sample.konnectivity
           "203.0.113.7" 6443 (sample.world sample.defined ∅)
           (sample.world (sample.agent sample.defined) ∅));
    [reflexivity | reflexivity | apply mutate_sample].
Defined.

Lemma mutate_idempotent_witness :
  mutate sample.exposed sample.enabled (sample.world sample.defined ∅)
  = Some (None, sample.world (sample.agent sample.defined) ∅)
  ∧ mutate sample.exposed sample.enabled (sample.world (sample.agent sample.defined) ∅)
    = Some (None, sample.world (sample.agent sample.defined) ∅).
Proof.
  split; [apply mutate_sample|].
  apply (mutate_idempotent sample.AgentName sample.agentTokenName sample.KamajiLabels
           sample.exposed sample.enabled (sample.world sample.defined ∅)).
  apply mutate_sample.
Defined.

Lemma mutate_selector_in_template_labels_witness :
  mutate sample.exposed sample.enabled (sample.world sample.defined ∅)
  = Some (None, sample.world (sample.agent sample.defined) ∅)
  ∧ ∃ selector,
      DaemonSetSpec.Selector (DaemonSet.Spec (sample.agent sample.defined)) = Some selector
      ∧ ∀ key value,
          LabelSelector.MatchLabels selector !! key = Some value →
          PodTemplateSpec.GetLabels
            (DaemonSetSpec.Template (DaemonSet.Spec (sample.agent sample.defined)))
            !! key = Some value.
Proof.
  split; [apply mutate_sample|].
  apply (mutate_selector_in_template_labels sample.AgentName sample.agentTokenName
           sample.KamajiLabels sample.exposed sample.enabled
           (sample.world sample.defined ∅) (sample.world (sample.agent sample.defined) ∅)).
  apply mutate_sample.
Defined.

Lemma mutate_unresolved_address_witness :
  let err := errorString "the Tenant Control Plane is not yet exposed" in
  let w := sample.world sample.defined ∅ in
  sample.notExposed sample.enabled = inr err
  ∧ (∃ w1, mutate sample.notExposed sample.enabled w = Some (Some err, w1)
           ∧ resource w1 = resource w
           ∧ tenant w1 = tenant w
           ∧ trace w1 = trace w ++ [LoggedError Agent.GetName err
                                      "unable to retrieve the Tenant Control Plane address"])
  ∧ (is_Some (TenantControlPlane.addon sample.enabled) →
     ∃ err' w' events,
       CreateOrUpdate sample.notExposed sample.enabled w
       = Some ((controllerutil.OperationResultNone, Some err'), w')
       ∧ tenant w' = tenant w
       ∧ trace w' = trace w ++ events
       ∧ ∀ obj, (Called (client.CallCreate obj) ∉ events)
                ∧ (Called (client.CallUpdate obj) ∉ events))
  ∧ (is_Some (TenantControlPlane.addon sample.enabled) →
     ∀ (now : Time) (r : Agent.Struct (gmap (string * string) DaemonSet.t) unit)
       (cluster : gmap (string * string) DaemonSet.t),
       sample.resolved (Agent.Client r) sample.enabled = (Some cluster, None) →
       ∃ err' tcp' r' events,
         lifecycle.pass sample.AgentName sample.AgentNamespace sample.agentTokenName
           sample.KamajiLabels sample.notExposed sample.resolved now sample.enabled r
         = Some (Some err', tcp', r', events)
         ∧ tcp' = sample.enabled
         ∧ TenantControlPlane.Status tcp' = TenantControlPlane.Status sample.enabled
         ∧ Agent.tenantClient_ptr r' = Some cluster
         ∧ ∀ obj, (Called (client.CallCreate obj) ∉ events)
                  ∧ (Called (client.CallUpdate obj) ∉ events)).
Proof.
  intros err w. split; [reflexivity|].
  apply (mutate_unresolved_address sample.AgentName sample.AgentNamespace
           sample.agentTokenName sample.KamajiLabels sample.notExposed sample.resolved
           sample.enabled err w).
  reflexivity.
Defined.

(** The pass on the sample control plane while its address is unresolved:
    the error of the resolution comes back, the control plane is the one
    handed in, the cluster is still empty, and the read is the only call. *)
Example pass_sample_unresolved :
  lifecycle.pass sample.AgentName sample.AgentNamespace sample.agentTokenName
    sample.KamajiLabels sample.notExposed sample.resolved 1667260800 sample.enabled
    sample.allocated
  = Some (Some (errorString "the Tenant Control Plane is not yet exposed"),
          sample.enabled,
          Agent.mkStruct (Some sample.defined) tt (Some ∅),
          [Called (client.CallGet sample.key);
           LoggedError "konnectivity-agent"
             (errorString "the Tenant Control Plane is not yet exposed")
             "unable to retrieve the Tenant Control Plane address"]).
Proof. reflexivity. Qed.

(** The same pass once the address resolves: it completes, and only then
    is the status written. *)
Example pass_sample_exposed :
  lifecycle.pass sample.AgentName sample.AgentNamespace sample.agentTokenName
    sample.KamajiLabels sample.exposed sample.resolved 1667260800 sample.enabled
    sample.allocated
  = Some (None,
          TenantControlPlane.set_agentStatus
            {| ExternalKubernetesObjectStatus.Name := "konnectivity-agent";
               ExternalKubernetesObjectStatus.Namespace := "kube-system";
               ExternalKubernetesObjectStatus.LastUpdate := 1667260800 |}
            sample.enabled,
          Agent.mkStruct (Some (sample.agent sample.defined)) tt
            (Some {[ memory.index sample.key := sample.agent sample.defined ]}),
          [Called (client.CallGet sample.key);
           Called (client.CallCreate (sample.agent sample.defined))]).
Proof. reflexivity. Qed.

Lemma CreateOrUpdate_disabled_witness :
  TenantControlPlane.addon sample.disabledPopulated = None
  ∧ CreateOrUpdate sample.exposed sample.disabledPopulated
      (sample.world sample.defined {[ ("kube-system", "konnectivity-agent") := sample.defined ]})
    = Some ((controllerutil.OperationResultNone, None),
            sample.world sample.defined
              {[ ("kube-system", "konnectivity-agent") := sample.defined ]}).
Proof.
  split; [reflexivity|].
  apply (CreateOrUpdate_disabled sample.AgentName sample.agentTokenName
           sample.KamajiLabels sample.exposed sample.disabledPopulated).
  reflexivity.
Defined.

Lemma mutate_boundary_values_witness :
  let w' := sample.world (sample.agent sample.defined) ∅ in
  mutate sample.exposed sample.enabled (sample.world sample.defined ∅) = Some (None, w')
  ∧ (∃ c, containers (resource w') = [c]
          ∧ Container.LivenessProbe c = Some
              {| Probe.ProbeHandler :=
                   {| ProbeHandler.HTTPGet := Some
                        {| HTTPGetAction.Path := "/healthz";
                           HTTPGetAction.Port := intstr.Int 8134;
                           HTTPGetAction.Scheme := "HTTP";
                           HTTPGetAction.Host := EmptyString |} |};
                 Probe.InitialDelaySeconds := 15;
                 Probe.TimeoutSeconds := 15;
                 Probe.PeriodSeconds := 10;
                 Probe.SuccessThreshold := 1;
                 Probe.FailureThreshold := 3 |}
          ∧ Container.VolumeMounts c =
              [{| VolumeMount.MountPath := "/var/run/secrets/tokens";
                  VolumeMount.Name := sample.agentTokenName;
                  VolumeMount.ReadOnly := false;
                  VolumeMount.SubPath := EmptyString |}])
  ∧ ∃ token,
      PodSpec.Volumes (podSpec (resource w')) =
        [{| Volume.Name := sample.agentTokenName;
            Volume.VolumeSource :=
              {| VolumeSource.Projected := Some
                   {| ProjectedVolumeSource.Sources :=
                        [{| VolumeProjection.ServiceAccountToken := Some token |}];
                      ProjectedVolumeSource.DefaultMode := Some 420 |} |} |}]
      ∧ ServiceAccountTokenProjection.ExpirationSeconds token = Some 3600
      ∧ ServiceAccountTokenProjection.Path token = sample.agentTokenName
      ∧ ServiceAccountTokenProjection.Audience token =
          ExternalKubernetesObjectStatus.Name
            (KonnectivityStatus.ClusterRoleBinding
               (TenantControlPlane.addonStatus sample.enabled)).
Proof.
  intros w'. split; [apply mutate_sample|].
  apply (mutate_boundary_values sample.AgentName sample.agentTokenName
           sample.KamajiLabels sample.exposed sample.enabled
           (sample.world sample.defined ∅) w').
  apply mutate_sample.
Defined.

Lemma mutate_container_frame_witness :
  let frame (cs : list Container.t) :=
    let w := sample.world (sample.withContainers cs) ∅ in
    ∃ w' c',
      mutate sample.exposed sample.enabled w = Some (None, w')
      ∧ containers (resource w') = [c']
      ∧ let kept := match containers (resource w) with
                    | [c] => c
                    | _ => Container.zero
                    end in
        c' = Agent.agentContainer sample.AgentName sample.agentTokenName "203.0.113.7"
               sample.konnectivity kept
        ∧ Container.WorkingDir c' = Container.WorkingDir kept
        ∧ Container.Ports c' = Container.Ports kept
        ∧ Container.Env c' = Container.Env kept
        ∧ Container.Resources c' = Container.Resources kept
        ∧ Container.ImagePullPolicy c' = Container.ImagePullPolicy kept in
  TenantControlPlane.addon sample.enabled = Some sample.konnectivity
  ∧ sample.exposed sample.enabled = inl ("203.0.113.7", 6443)
  ∧ frame []
  ∧ frame [sample.tuned]
  ∧ frame [sample.tuned; sample.sidecar].
Proof.
  intros frame. split; [reflexivity|]. split; [reflexivity|].
  repeat split;
    apply (mutate_container_frame sample.AgentName sample.agentTokenName
             sample.KamajiLabels sample.exposed sample.enabled sample.konnectivity
             "203.0.113.7" 6443);
    reflexivity.
Defined.

(** One container with settings of its own keeps them; two containers are
    both dropped for a zeroed one. *)
Example mutate_sample_frame :
  (∃ c', containers (sample.agent (sample.withContainers [sample.tuned])) = [c']
         ∧ Container.Env c' = [EnvVar.mk "HTTPS_PROXY" "http://proxy:3128"]
         ∧ Container.Ports c' = [ContainerPort.mk "health" 8134 "TCP"]
         ∧ Container.WorkingDir c' = "/work"
         ∧ Container.Args c' ≠ ["--stale"])
  ∧ containers (sample.agent (sample.withContainers [sample.tuned; sample.sidecar]))
    = containers (sample.agent sample.defined).
Proof.
  split; [|reflexivity]. eexists. split; [reflexivity|]. repeat split.
  vm_compute. discriminate.
Qed.

End samples.

(** * Further properties of the agent *)

Section more.
Context {S : Type} `{!client.Client S}.
Variable AgentName : string.
Variable agentTokenName : string.
Variable KamajiLabels : string → string → gmap string string.
Variable AssignedControlPlaneAddress : TenantControlPlane.t → string * Z + error.

Local Abbreviation mutate :=
  (Agent.mutate (S:=S) AgentName agentTokenName KamajiLabels AssignedControlPlaneAddress).
Local Abbreviation desired :=
  (Agent.desired AgentName agentTokenName KamajiLabels).
Local Abbreviation CreateOrUpdate :=
  (Agent.CreateOrUpdate (S:=S) AgentName agentTokenName KamajiLabels
     AssignedControlPlaneAddress).

(** X1. What [mutate] leaves alone. After a [mutate] that returned nil,
    name, namespace and annotations of the object, the match-expressions of
    its selector, [MinReadySeconds], name, namespace and annotations of the
    pod template, and DNS policy and host network of the pod are as they
    were; the cluster is untouched and nothing was logged or called. *)
Theorem mutate_frame tcp (w w' : World S) :
  mutate tcp w = Some (None, w') →
  let obj := resource w in
  let obj' := resource w' in
  let template := DaemonSetSpec.Template (DaemonSet.Spec obj) in
  let template' := DaemonSetSpec.Template (DaemonSet.Spec obj') in
  client.ObjectKeyFromObject obj' = client.ObjectKeyFromObject obj
  ∧ ObjectMeta.Annotations (DaemonSet.ObjectMeta obj')
    = ObjectMeta.Annotations (DaemonSet.ObjectMeta obj)
  ∧ LabelSelector.MatchExpressions <$> DaemonSetSpec.Selector (DaemonSet.Spec obj')
    = Some (from_option LabelSelector.MatchExpressions []
              (DaemonSetSpec.Selector (DaemonSet.Spec obj)))
  ∧ DaemonSetSpec.MinReadySeconds (DaemonSet.Spec obj')
    = DaemonSetSpec.MinReadySeconds (DaemonSet.Spec obj)
  ∧ ObjectMeta.Name (PodTemplateSpec.ObjectMeta template')
    = ObjectMeta.Name (PodTemplateSpec.ObjectMeta template)
  ∧ ObjectMeta.Namespace (PodTemplateSpec.ObjectMeta template')
    = ObjectMeta.Namespace (PodTemplateSpec.ObjectMeta template)
  ∧ ObjectMeta.Annotations (PodTemplateSpec.ObjectMeta template')
    = ObjectMeta.Annotations (PodTemplateSpec.ObjectMeta template)
  ∧ PodSpec.DNSPolicy (podSpec obj') = PodSpec.DNSPolicy (podSpec obj)
  ∧ PodSpec.HostNetwork (podSpec obj') = PodSpec.HostNetwork (podSpec obj)
  ∧ tenant w' = tenant w
  ∧ trace w' = trace w.
Proof.
  intros (address & port & k & Haddr & Hk & ->)%mutate_success.
  cbn. repeat split. by destruct (DaemonSetSpec.Selector _).
Qed.

(** X2. Labels that [mutate] replaces. After a [mutate] that returned nil
    the labels of the object are exactly the Kamaji labels for the name of
    the control plane and the component [konnectivity-agent], and the
    match-labels of the selector are exactly [k8s-app: AgentName]: whatever
    labels and match-labels the object had are gone. *)
Theorem mutate_replaces_labels tcp (w w' : World S) :
  mutate tcp w = Some (None, w') →
  DaemonSet.GetLabels (resource w')
  = KamajiLabels (TenantControlPlane.GetName tcp) "konnectivity-agent"
  ∧ LabelSelector.MatchLabels <$> DaemonSetSpec.Selector (DaemonSet.Spec (resource w'))
    = Some {[ "k8s-app" := AgentName ]}.
Proof.
  intros (address & port & k & Haddr & Hk & ->)%mutate_success.
  by split.
Qed.

(** X3. Labels that [mutate] merges. After a [mutate] that returned nil the
    pod template has the label [k8s-app: AgentName], and every other label
    it had before, with the value it had; it has no label it did not have
    before, [k8s-app] apart. *)
Theorem mutate_merges_template_labels tcp (w w' : World S) :
  mutate tcp w = Some (None, w') →
  ∀ key,
    PodTemplateSpec.GetLabels (DaemonSetSpec.Template (DaemonSet.Spec (resource w')))
      !! key
    = if decide (key = "k8s-app") then Some AgentName
      else PodTemplateSpec.GetLabels
             (DaemonSetSpec.Template (DaemonSet.Spec (resource w))) !! key.
Proof.
  intros (address & port & k & Haddr & Hk & ->)%mutate_success. intros key.
  cbn. unfold PodTemplateSpec.GetLabels. cbn. rewrite MergeMaps_pair.
  rewrite lookup_union, lookup_singleton. case_decide as E.
  - subst key. rewrite decide_True by done. by destruct (_ !! _).
  - rewrite decide_False by done. by destruct (_ !! _).
Qed.

(** X4. Scheduling and container identity. After a [mutate] that returned
    nil the pod has the priority class [system-cluster-critical], exactly
    one toleration ([CriticalAddonsOnly], [Exists]), exactly the node
    selector [kubernetes.io/os: linux] and the service account [AgentName],
    whatever it had before; its container is named [AgentName], runs
    [/proxy-agent], and its image is the image and the version of the
    add-on section, joined by a colon. *)
Theorem mutate_scheduling tcp konnectivity (w w' : World S) :
  TenantControlPlane.addon tcp = Some konnectivity →
  mutate tcp w = Some (None, w') →
  PodSpec.PriorityClassName (podSpec (resource w')) = "system-cluster-critical"
  ∧ PodSpec.Tolerations (podSpec (resource w'))
    = [{| Toleration.Key := "CriticalAddonsOnly";
          Toleration.Operator := "Exists";
          Toleration.Value := EmptyString;
          Toleration.Effect := EmptyString;
          Toleration.TolerationSeconds := None |}]
  ∧ PodSpec.NodeSelector (podSpec (resource w')) = {[ "kubernetes.io/os" := "linux" ]}
  ∧ PodSpec.ServiceAccountName (podSpec (resource w')) = AgentName
  ∧ ∃ c, containers (resource w') = [c]
         ∧ Container.Name c = AgentName
         ∧ Container.Command c = ["/proxy-agent"]
         ∧ Container.Image c
           = KonnectivityAgentSpec.Image
               (KonnectivitySpec.KonnectivityAgentSpec konnectivity)
             +:+ ":"
             +:+ KonnectivityAgentSpec.Version
                   (KonnectivitySpec.KonnectivityAgentSpec konnectivity).
Proof.
  intros Hk (address & port & k & Haddr & Hk' & ->)%mutate_success.
  rewrite Hk in Hk'. injection Hk' as <-.
  repeat split. eexists. by repeat split.
Qed.

(** X5. The three outcomes of [mutate] are decided by the control plane
    alone, never by the object it is run on. It returns the error of the
    address resolution when the address does not resolve, whether or not
    there is an add-on section; it panics, on the nil add-on section,
    exactly when the address resolves and the add-on is disabled; and it
    returns nil exactly when the address resolves and the add-on is
    enabled. No shape of the object makes it fail: the index into the
    containers is always in range. *)
Theorem mutate_outcome tcp (w : World S) :
  match AssignedControlPlaneAddress tcp, TenantControlPlane.addon tcp with
  | inr err, _ => ∃ w', mutate tcp w = Some (Some err, w')
  | inl _, None => mutate tcp w = None
  | inl _, Some _ => ∃ w', mutate tcp w = Some (None, w')
  end.
Proof.
  rewrite mutate_run.
  destruct (AssignedControlPlaneAddress tcp) as [[address port]|err];
    [|by eexists].
  destruct (TenantControlPlane.addon tcp) as [k|]; [by eexists|done].
Qed.

Lemma desired_key address konnectivity tcp obj :
  client.ObjectKeyFromObject (desired address konnectivity tcp obj)
  = client.ObjectKeyFromObject obj.
Proof. reflexivity. Qed.

(** Running [CreateOrUpdate] with the add-on enabled and the address
    resolved: one read, then at most one write. *)
Lemma CreateOrUpdate_run tcp konnectivity address port (w : World S) :
  TenantControlPlane.addon tcp = Some konnectivity →
  AssignedControlPlaneAddress tcp = inl (address, port) →
  CreateOrUpdate tcp w =
  let key := client.ObjectKeyFromObject (resource w) in
  let read := trace w ++ [Called (client.CallGet key)] in
  match client.Get key (tenant w) with
  | inl obj =>
      let obj' := desired address konnectivity tcp obj in
      if bool_decide (key = client.ObjectKeyFromObject obj) then
        if bool_decide (obj = obj') then
          Some ((controllerutil.OperationResultNone, None),
                mkWorld obj' (tenant w) read)
        else
          Some (match (client.Update obj' (tenant w)).1 with
                | Some err => (controllerutil.OperationResultNone, Some err)
                | None => (controllerutil.OperationResultUpdated, None)
                end,
                mkWorld obj' (client.Update obj' (tenant w)).2
                  (read ++ [Called (client.CallUpdate obj')]))
      else
        Some ((controllerutil.OperationResultNone,
               Some (errorString
                       "MutateFn cannot mutate object name and/or object namespace")),
              mkWorld obj' (tenant w) read)
  | inr err =>
      if k8serrors.IsNotFound err then
        let obj' := desired address konnectivity tcp (resource w) in
        Some (match (client.Create obj' (tenant w)).1 with
              | Some err => (controllerutil.OperationResultNone, Some err)
              | None => (controllerutil.OperationResultCreated, None)
              end,
              mkWorld obj' (client.Create obj' (tenant w)).2
                (read ++ [Called (client.CallCreate obj')]))
      else
        Some ((controllerutil.OperationResultNone, Some err),
              mkWorld (resource w) (tenant w) read)
  end.
Proof.
  intros Hk Haddr. unfold Agent.CreateOrUpdate. rewrite Hk. cbn [Agent.is_nil negb].
  unfold controllerutil.CreateOrUpdate, controllerutil.mutate, tenantClient_Get,
    tenantClient_Create, tenantClient_Update, write.
  cbv [mbind M_bind mret M_ret get_resource]. cbn [resource tenant trace].
  destruct (client.Get _ _) as [obj|e].
  - rewrite mutate_run, Haddr, Hk. cbv beta iota. cbn [resource tenant trace].
    rewrite desired_key.
    case_bool_decide; [|reflexivity]. cbv beta iota. cbn [resource tenant trace].
    case_bool_decide; [reflexivity|]. cbv beta iota. cbn [resource tenant trace].
    by destruct (client.Update _ _) as [[e|] s].
  - destruct (k8serrors.IsNotFound e); cbn [negb]; [|reflexivity].
    rewrite mutate_run, Haddr, Hk. cbv beta iota. cbn [resource tenant trace].
    rewrite desired_key. rewrite bool_decide_eq_true_2 by done.
    by destruct (client.Create _ _) as [[e'|] s].
Qed.

(** Running [CreateOrUpdate] with the add-on enabled and the address
    unresolved: it returns an error. *)
Lemma CreateOrUpdate_unresolved tcp konnectivity err (w : World S) :
  TenantControlPlane.addon tcp = Some konnectivity →
  AssignedControlPlaneAddress tcp = inr err →
  ∃ err' w', CreateOrUpdate tcp w
             = Some ((controllerutil.OperationResultNone, Some err'), w').
Proof.
  intros Hk Haddr. unfold Agent.CreateOrUpdate. rewrite Hk. cbn [Agent.is_nil negb].
  unfold controllerutil.CreateOrUpdate, controllerutil.mutate, tenantClient_Get.
  cbv [mbind M_bind mret M_ret get_resource]. cbn [resource tenant trace].
  destruct (client.Get _ _) as [obj|e].
  - rewrite mutate_run, Haddr. by eexists _, _.
  - destruct (k8serrors.IsNotFound e); cbn [negb]; [|by eexists _, _].
    rewrite mutate_run, Haddr. by eexists _, _.
Qed.

(** X6. [CreateOrUpdate] never panics, for any control plane, any object in
    memory and any tenant client: the nil check on the add-on section keeps
    [mutate] away from a disabled add-on, on which it would dereference
    nil. *)
Theorem CreateOrUpdate_never_panics tcp (w : World S) :
  is_Some (CreateOrUpdate tcp w).
Proof.
  destruct (TenantControlPlane.addon tcp) as [k|] eqn:Hk.
  - destruct (AssignedControlPlaneAddress tcp) as [[address port]|err] eqn:Haddr.
    + rewrite (CreateOrUpdate_run _ _ _ _ _ Hk Haddr). cbn zeta.
      destruct (client.Get _ _) as [obj|e]; repeat case_match; done.
    + destruct (CreateOrUpdate_unresolved _ _ _ w Hk Haddr) as (e & w' & ->). done.
  - unfold Agent.CreateOrUpdate. rewrite Hk. done.
Qed.

(** A [CreateOrUpdate] with the add-on enabled that returns nil has left
    the [desired] form of an object with the name and namespace that
    [r.resource] had. *)
Lemma CreateOrUpdate_ok tcp konnectivity result (w w' : World S) :
  TenantControlPlane.addon tcp = Some konnectivity →
  CreateOrUpdate tcp w = Some ((result, None), w') →
  ∃ address port obj,
    AssignedControlPlaneAddress tcp = inl (address, port)
    ∧ resource w' = desired address konnectivity tcp obj
    ∧ client.ObjectKeyFromObject obj = client.ObjectKeyFromObject (resource w).
Proof.
  intros Hk.
  destruct (AssignedControlPlaneAddress tcp) as [[address port]|err] eqn:Haddr.
  - rewrite (CreateOrUpdate_run _ _ _ _ _ Hk Haddr). cbn zeta.
    destruct (client.Get _ _) as [obj|e].
    + case_bool_decide as Hkey; [|done]. case_bool_decide.
      * intros [= _ <-]. by exists address, port, obj.
      * destruct (client.Update _ _).1; [done|].
        intros [= _ <-]. by exists address, port, obj.
    + destruct (k8serrors.IsNotFound e); [|done].
      destruct (client.Create _ _).1; [done|].
      intros [= _ <-]. by exists address, port, (resource w).
  - destruct (CreateOrUpdate_unresolved _ _ _ w Hk Haddr) as (e & w1 & ->). done.
Qed.


(** X8. An error of the read is surfaced as it is. With the add-on enabled,
    when the read of the object fails with an error other than NotFound,
    [CreateOrUpdate] returns that error with [OperationResultNone]; [mutate]
    has not run: the object in memory and the cluster are as before,
    nothing was logged, and the read is the only call. *)
Theorem CreateOrUpdate_read_error tcp err (w : World S) :
  is_Some (TenantControlPlane.addon tcp) →
  client.Get (client.ObjectKeyFromObject (resource w)) (tenant w) = inr err →
  k8serrors.IsNotFound err = false →
  CreateOrUpdate tcp w
  = Some ((controllerutil.OperationResultNone, Some err),
          mkWorld (resource w) (tenant w)
            (trace w ++ [Called (client.CallGet (client.ObjectKeyFromObject (resource w)))])).
Proof.
  intros [k Hk] Hget Hnf. unfold Agent.CreateOrUpdate. rewrite Hk. cbn [Agent.is_nil negb].
  unfold controllerutil.CreateOrUpdate, tenantClient_Get.
  cbv [mbind M_bind mret M_ret get_resource]. cbn [resource tenant trace].
  by rewrite Hget, Hnf.
Qed.

(** X9. An error of the create is surfaced as it is. With the add-on
    enabled and the address resolved, when the read reports NotFound and the
    create of the mutated object fails, [CreateOrUpdate] returns the error
    of the create with [OperationResultNone]; the read and the create are
    the only calls. *)
Theorem CreateOrUpdate_create_error tcp konnectivity address port notFound err
    (w : World S) :
  TenantControlPlane.addon tcp = Some konnectivity →
  AssignedControlPlaneAddress tcp = inl (address, port) →
  client.Get (client.ObjectKeyFromObject (resource w)) (tenant w) = inr notFound →
  k8serrors.IsNotFound notFound = true →
  (client.Create (desired address konnectivity tcp (resource w)) (tenant w)).1
    = Some err →
  ∃ w', CreateOrUpdate tcp w
        = Some ((controllerutil.OperationResultNone, Some err), w')
        ∧ trace w'
          = trace w
            ++ [Called (client.CallGet (client.ObjectKeyFromObject (resource w)));
                Called (client.CallCreate
                          (desired address konnectivity tcp (resource w)))].
Proof.
  intros Hk Haddr Hget Hnf Herr. rewrite (CreateOrUpdate_run _ _ _ _ _ Hk Haddr).
  cbn zeta. rewrite Hget, Hnf, Herr. eexists. split; [reflexivity|].
  cbn [trace]. by rewrite <- (assoc_L (++)).
Qed.

(** X10. An error of the update is surfaced as it is. With the add-on
    enabled and the address resolved, when the read finds the object,
    [mutate] changes it and the update fails, [CreateOrUpdate] returns the
    error of the update with [OperationResultNone]. *)
Theorem CreateOrUpdate_update_error tcp konnectivity address port obj err
    (w : World S) :
  TenantControlPlane.addon tcp = Some konnectivity →
  AssignedControlPlaneAddress tcp = inl (address, port) →
  client.Get (client.ObjectKeyFromObject (resource w)) (tenant w) = inl obj →
  client.ObjectKeyFromObject obj = client.ObjectKeyFromObject (resource w) →
  desired address konnectivity tcp obj ≠ obj →
  (client.Update (desired address konnectivity tcp obj) (tenant w)).1 = Some err →
  ∃ w', CreateOrUpdate tcp w
        = Some ((controllerutil.OperationResultNone, Some err), w')
        ∧ trace w'
          = trace w
            ++ [Called (client.CallGet (client.ObjectKeyFromObject (resource w)));
                Called (client.CallUpdate (desired address konnectivity tcp obj))].
Proof.
  intros Hk Haddr Hget Hkey Hne Herr. rewrite (CreateOrUpdate_run _ _ _ _ _ Hk Haddr).
  cbn zeta. rewrite Hget. rewrite bool_decide_eq_true_2 by done.
  rewrite bool_decide_eq_false_2 by done. rewrite Herr.
  eexists. split; [reflexivity|]. cbn [trace]. by rewrite <- (assoc_L (++)).
Qed.

(** X11. [CleanUp] issues exactly one call, the delete of [r.resource], and
    leaves the object in memory alone; it logs one line, the error, exactly
    when the delete failed with an error other than NotFound. *)
Theorem CleanUp_trace tcp (w : World S) :
  ∃ result w',
    Agent.CleanUp tcp w = Some (result, w')
    ∧ resource w' = resource w
    ∧ trace w'
      = trace w
        ++ Called (client.CallDelete (resource w))
           :: match (client.Delete (resource w) (tenant w)).1 with
              | Some err =>
                  if k8serrors.IsNotFound err then []
                  else [LoggedError "konnectivity-agent" err
                          "cannot delete the requested resource"]
              | None => []
              end.
Proof.
  unfold Agent.CleanUp, tenantClient_Delete, write.
  cbv [mbind M_bind mret M_ret logger_Error emit].
  destruct (client.Delete (resource w) (tenant w)) as [[err|] s]; cbn.
  - destruct (k8serrors.IsNotFound err); eexists _, _; repeat split.
    cbn. by rewrite <- (assoc_L (++)).
  - by eexists _, _.
Qed.

End more.

(** ** The agent against the in-memory cluster *)

Section in_memory.
Variable AgentName : string.
Variable agentTokenName : string.
Variable KamajiLabels : string → string → gmap string string.
Variable AssignedControlPlaneAddress : TenantControlPlane.t → string * Z + error.

Local Abbreviation desired :=
  (Agent.desired AgentName agentTokenName KamajiLabels).
Local Abbreviation CreateOrUpdate :=
  (Agent.CreateOrUpdate (S:=gmap (string * string) DaemonSet.t)
     AgentName agentTokenName KamajiLabels AssignedControlPlaneAddress).

(** Running [CreateOrUpdate] on a cluster that does not hold the object. *)
Lemma CreateOrUpdate_absent (tcp : TenantControlPlane.t) (konnectivity : KonnectivitySpec.t)
    (address : string) (port : Z)
    (w : World (gmap (string * string) DaemonSet.t)) :
  TenantControlPlane.addon tcp = Some konnectivity →
  AssignedControlPlaneAddress tcp = inl (address, port) →
  tenant w !! memory.index (client.ObjectKeyFromObject (resource w)) = None →
  let obj' := desired address konnectivity tcp (resource w) in
  CreateOrUpdate tcp w
  = Some ((controllerutil.OperationResultCreated, None),
          mkWorld obj'
            (<[memory.index (client.ObjectKeyFromObject (resource w)) := obj']> (tenant w))
            (trace w
             ++ [Called (client.CallGet (client.ObjectKeyFromObject (resource w)));
                 Called (client.CallCreate obj')])).
Proof.
  intros Hk Haddr Habsent obj'. rewrite (CreateOrUpdate_run _ _ _ _ _ _ _ _ _ Hk Haddr).
  cbn zeta. cbn [client.Get client.Create memory.Client].
  unfold memory.Get, memory.Create. rewrite Habsent. cbn [k8serrors.IsNotFound memory.notFound].
  rewrite desired_key, Habsent. cbn [fst snd]. by rewrite <- (assoc_L (++)).
Qed.

(** X12. Creation. With the add-on enabled and the address resolved, on a
    cluster that does not hold the object, [CreateOrUpdate] returns
    [OperationResultCreated] and nil. The cluster then holds, under the
    name of [r.resource], the object that is left in memory, which is the
    mutated [r.resource]; every other object of the cluster is as before;
    the read and the create are the only calls. *)
Theorem CreateOrUpdate_creates (tcp : TenantControlPlane.t)
    (konnectivity : KonnectivitySpec.t) (address : string) (port : Z)
    (w : World (gmap (string * string) DaemonSet.t)) :
  TenantControlPlane.addon tcp = Some konnectivity →
  AssignedControlPlaneAddress tcp = inl (address, port) →
  tenant w !! memory.index (client.ObjectKeyFromObject (resource w)) = None →
  ∃ w',
    CreateOrUpdate tcp w = Some ((controllerutil.OperationResultCreated, None), w')
    ∧ resource w' = desired address konnectivity tcp (resource w)
    ∧ tenant w' !! memory.index (client.ObjectKeyFromObject (resource w))
      = Some (resource w')
    ∧ (∀ other, other ≠ memory.index (client.ObjectKeyFromObject (resource w)) →
                tenant w' !! other = tenant w !! other)
    ∧ trace w'
      = trace w
        ++ [Called (client.CallGet (client.ObjectKeyFromObject (resource w)));
            Called (client.CallCreate (resource w'))].
Proof.
  intros Hk Haddr Habsent. eexists.
  split; [exact (CreateOrUpdate_absent tcp konnectivity address port w Hk Haddr Habsent)|].
  cbn [resource tenant trace]. split; [done|]. split; [by rewrite lookup_insert_eq|].
  split; [|done]. intros other Hne. by rewrite lookup_insert_ne.
Qed.

(** X13. Convergence. With the add-on enabled, after a [CreateOrUpdate]
    that returned nil, whatever it created, updated or left, a second
    [CreateOrUpdate] for the same control plane returns
    [OperationResultNone] and nil, and changes neither the object in memory
    nor the cluster: its read is its only call. *)
Theorem CreateOrUpdate_converges (tcp : TenantControlPlane.t)
    (result : controllerutil.OperationResult)
    (w w1 : World (gmap (string * string) DaemonSet.t)) :
  is_Some (TenantControlPlane.addon tcp) →
  CreateOrUpdate tcp w = Some ((result, None), w1) →
  CreateOrUpdate tcp w1
  = Some ((controllerutil.OperationResultNone, None),
          mkWorld (resource w1) (tenant w1)
            (trace w1 ++ [Called (client.CallGet (client.ObjectKeyFromObject (resource w1)))])).
Proof.
  intros [k Hk].
  destruct (AssignedControlPlaneAddress tcp) as [[address port]|err] eqn:Haddr.
  2:{ destruct (CreateOrUpdate_unresolved AgentName agentTokenName KamajiLabels
                  _ _ _ _ w Hk Haddr) as (e & w' & ->).
      done. }
  rewrite !(CreateOrUpdate_run _ _ _ _ _ _ _ _ _ Hk Haddr). cbn zeta.
  cbn [client.Get client.Create client.Update memory.Client].
  unfold memory.Get, memory.Create, memory.Update.
  destruct (tenant w !! _) as [obj|] eqn:Hl.
  - case_bool_decide as Hkey; [|done]. case_bool_decide as Hsame.
    + intros [= _ <-]. cbn [resource tenant trace].
      rewrite !desired_key, <- !Hkey, Hl. cbv beta iota.
      by rewrite !bool_decide_eq_true_2 by done.
    + rewrite ?desired_key, <- ?Hkey, ?Hl. cbn [fst snd].
      intros [= _ <-]. cbn [resource tenant trace].
      rewrite !desired_key, <- !Hkey, lookup_insert_eq, desired_again. cbv beta iota.
      by rewrite !bool_decide_eq_true_2 by done.
  - cbn [k8serrors.IsNotFound memory.notFound]. rewrite ?desired_key, ?Hl. cbn [fst snd].
    intros [= _ <-]. cbn [resource tenant trace].
    rewrite !desired_key, lookup_insert_eq, desired_again. cbv beta iota.
    by rewrite !bool_decide_eq_true_2 by done.
Qed.

(** X14. Enabling and disabling. On a cluster that does not hold the
    object, a [CreateOrUpdate] with the add-on enabled followed by a
    [CleanUp] returns [true] and nil from the clean-up and leaves the
    cluster as it was before the two. *)
Theorem CreateOrUpdate_then_CleanUp (tcp tcp' : TenantControlPlane.t) (konnectivity : KonnectivitySpec.t)
    (address : string) (port : Z)
    (w : World (gmap (string * string) DaemonSet.t)) :
  TenantControlPlane.addon tcp = Some konnectivity →
  AssignedControlPlaneAddress tcp = inl (address, port) →
  tenant w !! memory.index (client.ObjectKeyFromObject (resource w)) = None →
  ∃ w1 w2,
    CreateOrUpdate tcp w = Some ((controllerutil.OperationResultCreated, None), w1)
    ∧ Agent.CleanUp tcp' w1 = Some ((true, None), w2)
    ∧ tenant w2 = tenant w.
Proof.
  intros Hk Haddr Habsent. eexists _, _.
  split; [exact (CreateOrUpdate_absent tcp konnectivity address port w Hk Haddr Habsent)|].
  unfold Agent.CleanUp, tenantClient_Delete, write.
  cbv [mbind M_bind mret M_ret]. cbn [resource tenant trace].
  cbn [client.Delete memory.Client]. unfold memory.Delete.
  rewrite desired_key, lookup_insert_eq. split; [reflexivity|].
  cbn [tenant]. by rewrite delete_insert_eq, delete_id.
Qed.

End in_memory.

(** ** The status and the whole pass *)

(** X15. The status update and the predicate that asks for it. After
    [UpdateTenantControlPlaneStatus], [ShouldStatusBeUpdated] holds of the
    control plane it leaves exactly when the add-on is disabled, that is,
    exactly when [ShouldCleanup] holds; [ShouldCleanup] itself is not
    changed by the update; and a second update at the same time changes
    nothing. *)
Theorem UpdateTenantControlPlaneStatus_then_predicates :
  ∀ {S} (now : Time) tcp (w : World S),
    ∃ tcp',
      Agent.UpdateTenantControlPlaneStatus now tcp w = Some ((tcp', None), w)
      ∧ Agent.ShouldStatusBeUpdated tcp' = Agent.ShouldCleanup tcp
      ∧ Agent.ShouldCleanup tcp' = Agent.ShouldCleanup tcp
      ∧ Agent.UpdateTenantControlPlaneStatus now tcp' w = Some ((tcp', None), w).
Proof.
  intros S0 now tcp w. unfold Agent.UpdateTenantControlPlaneStatus.
  destruct tcp as [meta [[k]] [[[agent crb]]]].
  unfold Agent.ShouldStatusBeUpdated, Agent.ShouldCleanup. cbn.
  destruct k as [k|]; eexists; by repeat split.
Qed.

Section pass.
Context {S C : Type} `{!client.Client S}.
Variable AgentName : string.
Variable AgentNamespace : string.
Variable agentTokenName : string.
Variable KamajiLabels : string → string → gmap string string.
Variable AssignedControlPlaneAddress : TenantControlPlane.t → string * Z + error.
Variable GetTenantClient : C → TenantControlPlane.t → option S * option error.

Local Abbreviation Define := (Agent.Define AgentName AgentNamespace GetTenantClient).
Local Abbreviation CreateOrUpdate :=
  (Agent.CreateOrUpdate (S:=S) AgentName agentTokenName KamajiLabels
     AssignedControlPlaneAddress).

(** X16. [Define] keeps nothing of a previous pass. Of the struct it is
    called on it uses the management client [r.Client] alone, which it
    leaves in place: what [r.resource] and [r.tenantClient] held makes no
    difference to what it returns and leaves. Afterwards [r.resource] is
    the DaemonSet of the fixed name and namespace with every other field
    zero, also when the tenant client could not be resolved, and
    [r.tenantClient] and the returned error are those that
    [GetTenantClient] gave for [r.Client], the error logged once when there
    is one. *)
Theorem Define_from_scratch tcp (r : Agent.Struct S C) :
  Define tcp r = Define tcp (Agent.mkStruct None (Agent.Client r) None)
  ∧ ∃ events,
      Define tcp r
      = ((GetTenantClient (Agent.Client r) tcp).2,
         Agent.mkStruct (Some (Agent.identity AgentName AgentNamespace))
           (Agent.Client r)
           (GetTenantClient (Agent.Client r) tcp).1,
         events)
      ∧ events = match (GetTenantClient (Agent.Client r) tcp).2 with
                 | Some err =>
                     [LoggedError "konnectivity-agent" err
                        "unable to retrieve the Tenant Control Plane client"]
                 | None => []
                 end.
Proof.
  unfold Agent.Define. cbn.
  destruct (GetTenantClient (Agent.Client r) tcp) as [c [err|]];
    (split; [done|]); by eexists.
Qed.

(** X17. The status after a pass. When [Define] has returned nil with both
    pointers set and, with the add-on enabled, [CreateOrUpdate] has
    returned nil, then [UpdateTenantControlPlaneStatus] writes the fixed
    name and namespace of the agent and the time of the call into the
    status, for any tenant client and whatever object the cluster held. *)
Theorem pass_status tcp r r' events result now (w w' : World S) :
  is_Some (TenantControlPlane.addon tcp) →
  Define tcp r = (None, r', events) →
  Agent.world r' events = Some w →
  CreateOrUpdate tcp w = Some ((result, None), w') →
  ∃ tcp',
    Agent.UpdateTenantControlPlaneStatus now tcp w' = Some ((tcp', None), w')
    ∧ KonnectivityStatus.Agent (TenantControlPlane.addonStatus tcp')
      = {| ExternalKubernetesObjectStatus.Name := AgentName;
           ExternalKubernetesObjectStatus.Namespace := AgentNamespace;
           ExternalKubernetesObjectStatus.LastUpdate := now |}.
Proof.
  intros [k Hk] Hdef Hw Hrun.
  destruct (CreateOrUpdate_ok _ _ _ _ _ _ _ _ _ Hk Hrun)
    as (address & port & obj & Haddr & Hres & Hkey).
  assert (resource w = Agent.identity AgentName AgentNamespace) as Hid.
  { unfold Agent.Define in Hdef. cbn [Agent.Client] in Hdef.
    destruct (GetTenantClient (Agent.Client r) tcp) as [c [err|]]; [done|].
    injection Hdef as <- <-. unfold Agent.world in Hw. cbn in Hw.
    destruct c; [|done]. by injection Hw as <-. }
  unfold Agent.UpdateTenantControlPlaneStatus. rewrite Hk. cbn [Agent.is_nil negb].
  eexists. split; [reflexivity|]. cbn.
  rewrite Hid in Hkey. unfold client.ObjectKeyFromObject in Hkey. cbn in Hkey.
  rewrite Hres. unfold DaemonSet.GetName, DaemonSet.GetNamespace. cbn.
  unfold DaemonSet.GetName, DaemonSet.GetNamespace in Hkey.
  by injection Hkey as -> ->.
Qed.

End pass.

(** ** The further properties on the sample control plane *)

Section more_samples.
Local Abbreviation mutate :=
  (Agent.mutate (S:=gmap (string * string) DaemonSet.t)
     sample.AgentName sample.agentTokenName sample.KamajiLabels sample.exposed).
Local Abbreviation CreateOrUpdate :=
  (Agent.CreateOrUpdate (S:=gmap (string * string) DaemonSet.t)
     sample.AgentName sample.agentTokenName sample.KamajiLabels sample.exposed).
Local Abbreviation CreateOrUpdate_with client :=
  (Agent.CreateOrUpdate (H:=client)
     sample.AgentName sample.agentTokenName sample.KamajiLabels sample.exposed).
Local Abbreviation index := (memory.index sample.key).

Lemma mutate_frame_witness :
  let w := sample.world sample.edited ∅ in
  let w' := sample.world (sample.agent sample.edited) ∅ in
  mutate sample.enabled w = Some (None, w')
  ∧ let obj := resource w in
    let obj' := resource w' in
    let template := DaemonSetSpec.Template (DaemonSet.Spec obj) in
    let template' := DaemonSetSpec.Template (DaemonSet.Spec obj') in
    client.ObjectKeyFromObject obj' = client.ObjectKeyFromObject obj
    ∧ ObjectMeta.Annotations (DaemonSet.ObjectMeta obj')
      = ObjectMeta.Annotations (DaemonSet.ObjectMeta obj)
    ∧ LabelSelector.MatchExpressions <$> DaemonSetSpec.Selector (DaemonSet.Spec obj')
      = Some (from_option LabelSelector.MatchExpressions []
                (DaemonSetSpec.Selector (DaemonSet.Spec obj)))
    ∧ DaemonSetSpec.MinReadySeconds (DaemonSet.Spec obj')
      = DaemonSetSpec.MinReadySeconds (DaemonSet.Spec obj)
    ∧ ObjectMeta.Name (PodTemplateSpec.ObjectMeta template')
      = ObjectMeta.Name (PodTemplateSpec.ObjectMeta template)
    ∧ ObjectMeta.Namespace (PodTemplateSpec.ObjectMeta template')
      = ObjectMeta.Namespace (PodTemplateSpec.ObjectMeta template)
    ∧ ObjectMeta.Annotations (PodTemplateSpec.ObjectMeta template')
      = ObjectMeta.Annotations (PodTemplateSpec.ObjectMeta template)
    ∧ PodSpec.DNSPolicy (podSpec obj') = PodSpec.DNSPolicy (podSpec obj)
    ∧ PodSpec.HostNetwork (podSpec obj') = PodSpec.HostNetwork (podSpec obj)
    ∧ tenant w' = tenant w
    ∧ trace w' = trace w.
Proof.
  intros w w'. split; [apply mutate_sample|].
  apply (mutate_frame sample.AgentName sample.agentTokenName sample.KamajiLabels
           sample.exposed sample.enabled w w').
  apply mutate_sample.
Defined.

Lemma mutate_replaces_labels_witness :
  let w := sample.world sample.edited ∅ in
  let w' := sample.world (sample.agent sample.edited) ∅ in
  mutate sample.enabled w = Some (None, w')
  ∧ DaemonSet.GetLabels (resource w')
    = sample.KamajiLabels (TenantControlPlane.GetName sample.enabled) "konnectivity-agent"
  ∧ LabelSelector.MatchLabels <$> DaemonSetSpec.Selector (DaemonSet.Spec (resource w'))
    = Some {[ "k8s-app" := sample.AgentName ]}.
Proof.
  intros w w'. split; [apply mutate_sample|].
  apply (mutate_replaces_labels sample.AgentName sample.agentTokenName
           sample.KamajiLabels sample.exposed sample.enabled w w').
  apply mutate_sample.
Defined.

Lemma mutate_merges_template_labels_witness :
  let w := sample.world sample.edited ∅ in
  let w' := sample.world (sample.agent sample.edited) ∅ in
  mutate sample.enabled w = Some (None, w')
  ∧ ∀ key,
      PodTemplateSpec.GetLabels (DaemonSetSpec.Template (DaemonSet.Spec (resource w')))
        !! key
      = if decide (key = "k8s-app") then Some sample.AgentName
        else PodTemplateSpec.GetLabels
               (DaemonSetSpec.Template (DaemonSet.Spec (resource w))) !! key.
Proof.
  intros w w'. split; [apply mutate_sample|].
  apply (mutate_merges_template_labels sample.AgentName sample.agentTokenName
           sample.KamajiLabels sample.exposed sample.enabled w w').
  apply mutate_sample.
Defined.

(** On the edited DaemonSet: the label [team] of the template stays, its
    [k8s-app] is taken over. *)
Example mutate_sample_template_labels :
  PodTemplateSpec.GetLabels
    (DaemonSetSpec.Template (DaemonSet.Spec (sample.agent sample.edited)))
  = {[ "team" := "net"; "k8s-app" := "konnectivity-agent" ]}.
Proof. vm_compute. reflexivity. Qed.

Lemma mutate_scheduling_witness :
  let w := sample.world sample.edited ∅ in
  let w' := sample.world (sample.agent sample.edited) ∅ in
  TenantControlPlane.addon sample.enabled = Some sample.konnectivity
  ∧ mutate sample.enabled w = Some (None, w')
  ∧ PodSpec.PriorityClassName (podSpec (resource w')) = "system-cluster-critical"
  ∧ PodSpec.Tolerations (podSpec (resource w'))
    = [{| Toleration.Key := "CriticalAddonsOnly";
          Toleration.Operator := "Exists";
          Toleration.Value := EmptyString;
          Toleration.Effect := EmptyString;
          Toleration.TolerationSeconds := None |}]
  ∧ PodSpec.NodeSelector (podSpec (resource w')) = {[ "kubernetes.io/os" := "linux" ]}
  ∧ PodSpec.ServiceAccountName (podSpec (resource w')) = sample.AgentName
  ∧ ∃ c, containers (resource w') = [c]
         ∧ Container.Name c = sample.AgentName
         ∧ Container.Command c = ["/proxy-agent"]
         ∧ Container.Image c
           = KonnectivityAgentSpec.Image
               (KonnectivitySpec.KonnectivityAgentSpec sample.konnectivity)
             +:+ ":"
             +:+ KonnectivityAgentSpec.Version
                   (KonnectivitySpec.KonnectivityAgentSpec sample.konnectivity).
Proof.
  intros w w'. split; [reflexivity|]. split; [apply mutate_sample|].
  apply (mutate_scheduling sample.AgentName sample.agentTokenName sample.KamajiLabels
           sample.exposed sample.enabled sample.konnectivity w w');
    [reflexivity | apply mutate_sample].
Defined.

Lemma CreateOrUpdate_sample_created :
  CreateOrUpdate sample.enabled (sample.world sample.defined ∅)
  = Some ((controllerutil.OperationResultCreated, None),
          mkWorld (sample.agent sample.defined)
            {[ index := sample.agent sample.defined ]}
            [Called (client.CallGet sample.key);
             Called (client.CallCreate (sample.agent sample.defined))]).
Proof.
  by rewrite (CreateOrUpdate_absent _ _ _ _ sample.enabled sample.konnectivity
                "203.0.113.7" 6443).
Qed.


Lemma CreateOrUpdate_read_error_witness :
  let w : World unit := mkWorld sample.defined tt [] in
  is_Some (TenantControlPlane.addon sample.enabled)
  ∧ client.Get (Client:=sample.unavailable)
      (client.ObjectKeyFromObject (resource w)) (tenant w)
    = inr sample.unavailableError
  ∧ k8serrors.IsNotFound sample.unavailableError = false
  ∧ CreateOrUpdate_with sample.unavailable sample.enabled w
    = Some ((controllerutil.OperationResultNone, Some sample.unavailableError),
            mkWorld (resource w) (tenant w)
              (trace w
               ++ [Called (client.CallGet (client.ObjectKeyFromObject (resource w)))])).
Proof.
  intros w. split; [by eexists|]. split; [reflexivity|]. split; [reflexivity|].
  apply (CreateOrUpdate_read_error (H:=sample.unavailable) sample.AgentName
           sample.agentTokenName sample.KamajiLabels sample.exposed sample.enabled
           sample.unavailableError w);
    [by eexists | reflexivity | reflexivity].
Defined.

Lemma CreateOrUpdate_create_error_witness :
  let w := sample.world sample.defined ∅ in
  let err := StatusError StatusReasonAlreadyExists "konnectivity-agent" in
  TenantControlPlane.addon sample.enabled = Some sample.konnectivity
  ∧ sample.exposed sample.enabled = inl ("203.0.113.7", 6443)
  ∧ client.Get (Client:=sample.contended)
      (client.ObjectKeyFromObject (resource w)) (tenant w)
    = inr (memory.notFound sample.key)
  ∧ k8serrors.IsNotFound (memory.notFound sample.key) = true
  ∧ (client.Create (Client:=sample.contended) (sample.agent (resource w)) (tenant w)).1
    = Some err
  ∧ ∃ w', CreateOrUpdate_with sample.contended sample.enabled w
          = Some ((controllerutil.OperationResultNone, Some err), w')
          ∧ trace w'
            = trace w
              ++ [Called (client.CallGet (client.ObjectKeyFromObject (resource w)));
                  Called (client.CallCreate (sample.agent (resource w)))].
Proof.
  intros w err. do 5 (split; [reflexivity|]).
  apply (CreateOrUpdate_create_error (H:=sample.contended) sample.AgentName
           sample.agentTokenName sample.KamajiLabels sample.exposed sample.enabled
           sample.konnectivity "203.0.113.7" 6443 (memory.notFound sample.key) err w);
    reflexivity.
Defined.

Lemma edited_is_not_desired : sample.agent sample.edited ≠ sample.edited.
Proof.
  intros E. apply (f_equal (λ obj, PodSpec.PriorityClassName (podSpec obj))) in E.
  discriminate E.
Qed.

Lemma CreateOrUpdate_update_error_witness :
  let w := sample.world sample.defined {[ index := sample.edited ]} in
  TenantControlPlane.addon sample.enabled = Some sample.konnectivity
  ∧ sample.exposed sample.enabled = inl ("203.0.113.7", 6443)
  ∧ client.Get (Client:=sample.contended)
      (client.ObjectKeyFromObject (resource w)) (tenant w)
    = inl sample.edited
  ∧ client.ObjectKeyFromObject sample.edited = client.ObjectKeyFromObject (resource w)
  ∧ sample.agent sample.edited ≠ sample.edited
  ∧ (client.Update (Client:=sample.contended) (sample.agent sample.edited) (tenant w)).1
    = Some sample.conflictError
  ∧ ∃ w', CreateOrUpdate_with sample.contended sample.enabled w
          = Some ((controllerutil.OperationResultNone, Some sample.conflictError), w')
          ∧ trace w'
            = trace w
              ++ [Called (client.CallGet (client.ObjectKeyFromObject (resource w)));
                  Called (client.CallUpdate (sample.agent sample.edited))].
Proof.
  intros w. do 4 (split; [reflexivity|]). split; [apply edited_is_not_desired|].
  split; [reflexivity|].
  apply (CreateOrUpdate_update_error (H:=sample.contended) sample.AgentName
           sample.agentTokenName sample.KamajiLabels sample.exposed sample.enabled
           sample.konnectivity "203.0.113.7" 6443 sample.edited sample.conflictError w);
    [reflexivity | reflexivity | reflexivity | reflexivity
    | apply edited_is_not_desired | reflexivity].
Defined.

Lemma CreateOrUpdate_creates_witness :
  let w := sample.world sample.defined ∅ in
  TenantControlPlane.addon sample.enabled = Some sample.konnectivity
  ∧ sample.exposed sample.enabled = inl ("203.0.113.7", 6443)
  ∧ tenant w !! memory.index (client.ObjectKeyFromObject (resource w)) = None
  ∧ ∃ w',
      CreateOrUpdate sample.enabled w
      = Some ((controllerutil.OperationResultCreated, None), w')
      ∧ resource w' = sample.agent (resource w)
      ∧ tenant w' !! memory.index (client.ObjectKeyFromObject (resource w))
        = Some (resource w')
      ∧ (∀ other, other ≠ memory.index (client.ObjectKeyFromObject (resource w)) →
                  tenant w' !! other = tenant w !! other)
      ∧ trace w'
        = trace w
          ++ [Called (client.CallGet (client.ObjectKeyFromObject (resource w)));
              Called (client.CallCreate (resource w'))].
Proof.
  intros w. do 3 (split; [reflexivity|]).
  apply (CreateOrUpdate_creates sample.AgentName sample.agentTokenName
           sample.KamajiLabels sample.exposed sample.enabled sample.konnectivity
           "203.0.113.7" 6443 w);
    reflexivity.
Defined.

Lemma CreateOrUpdate_converges_witness :
  let w := sample.world sample.defined ∅ in
  let w1 := mkWorld (sample.agent sample.defined)
              {[ index := sample.agent sample.defined ]}
              [Called (client.CallGet sample.key);
               Called (client.CallCreate (sample.agent sample.defined))] in
  is_Some (TenantControlPlane.addon sample.enabled)
  ∧ CreateOrUpdate sample.enabled w
    = Some ((controllerutil.OperationResultCreated, None), w1)
  ∧ CreateOrUpdate sample.enabled w1
    = Some ((controllerutil.OperationResultNone, None),
            mkWorld (resource w1) (tenant w1)
              (trace w1
               ++ [Called (client.CallGet (client.ObjectKeyFromObject (resource w1)))])).
Proof.
  intros w w1. split; [by eexists|]. split; [apply CreateOrUpdate_sample_created|].
  apply (CreateOrUpdate_converges sample.AgentName sample.agentTokenName
           sample.KamajiLabels sample.exposed sample.enabled
           controllerutil.OperationResultCreated w w1);
    [by eexists | apply CreateOrUpdate_sample_created].
Defined.

Lemma CreateOrUpdate_then_CleanUp_witness :
  let w := sample.world sample.defined ∅ in
  TenantControlPlane.addon sample.enabled = Some sample.konnectivity
  ∧ sample.exposed sample.enabled = inl ("203.0.113.7", 6443)
  ∧ tenant w !! memory.index (client.ObjectKeyFromObject (resource w)) = None
  ∧ ∃ w1 w2,
      CreateOrUpdate sample.enabled w
      = Some ((controllerutil.OperationResultCreated, None), w1)
      ∧ Agent.CleanUp sample.disabledPopulated w1 = Some ((true, None), w2)
      ∧ tenant w2 = tenant w.
Proof.
  intros w. do 3 (split; [reflexivity|]).
  apply (CreateOrUpdate_then_CleanUp sample.AgentName sample.agentTokenName
           sample.KamajiLabels sample.exposed sample.enabled sample.disabledPopulated
           sample.konnectivity "203.0.113.7" 6443 w);
    reflexivity.
Defined.

Lemma pass_status_witness :
  let r' := Agent.mkStruct (Some sample.defined) tt
              (Some (∅ : gmap (string * string) DaemonSet.t)) in
  let w := sample.world sample.defined ∅ in
  let w' := mkWorld (sample.agent sample.defined)
              {[ index := sample.agent sample.defined ]}
              [Called (client.CallGet sample.key);
               Called (client.CallCreate (sample.agent sample.defined))] in
  is_Some (TenantControlPlane.addon sample.enabled)
  ∧ Agent.Define sample.AgentName sample.AgentNamespace sample.resolved sample.enabled
      sample.allocated
    = (None, r', [])
  ∧ Agent.world r' [] = Some w
  ∧ CreateOrUpdate sample.enabled w
    = Some ((controllerutil.OperationResultCreated, None), w')
  ∧ ∃ tcp',
      Agent.UpdateTenantControlPlaneStatus 1667260800 sample.enabled w'
      = Some ((tcp', None), w')
      ∧ KonnectivityStatus.Agent (TenantControlPlane.addonStatus tcp')
        = {| ExternalKubernetesObjectStatus.Name := sample.AgentName;
             ExternalKubernetesObjectStatus.Namespace := sample.AgentNamespace;
             ExternalKubernetesObjectStatus.LastUpdate := 1667260800 |}.
Proof.
  intros r' w w'. split; [by eexists|]. split; [reflexivity|]. split; [reflexivity|].
  split; [apply CreateOrUpdate_sample_created|].
  apply (pass_status sample.AgentName sample.AgentNamespace sample.agentTokenName
           sample.KamajiLabels sample.exposed sample.resolved sample.enabled
           sample.allocated r' [] controllerutil.OperationResultCreated
           1667260800 w w');
    [by eexists | reflexivity | reflexivity | apply CreateOrUpdate_sample_created].
Defined.

(** A failed resolution of the client still resets the object. *)
Example Define_sample_unresolved :
  Agent.Define sample.AgentName sample.AgentNamespace sample.unresolved sample.enabled
    (Agent.mkStruct (Some sample.edited) tt (Some ∅))
  = (Some sample.unresolvedError,
     Agent.mkStruct (Some sample.defined) tt None,
     [LoggedError "konnectivity-agent" sample.unresolvedError
        "unable to retrieve the Tenant Control Plane client"]).
Proof. reflexivity. Qed.

End more_samples.
